(** * anthropic-go: the server-sent-event stream decoder of [messages.go]

    A shallow embedding of [MessageStream.Recv], [ErrorUnknownEvent],
    [Close] and [StreamMessage], together with the parts of Go's [bufio],
    [strings] and [encoding/json] packages they call, and the properties of
    the decoder stated over it.

    Go strings are byte sequences: they are modelled as [string], one
    [ascii] per byte.  Go's [int] is taken as the 64-bit type of the usual
    targets, a [Z] with the wrap-around written out. *)

From Stdlib Require Import String Ascii List ZArith NArith Bool Lia.
Import ListNotations.
Local Open Scope string_scope.

(** ** Bytes and strings *)

Module Bytes.

Definition code (c : ascii) : N := N_of_ascii c.

Definition byte_eqb (c : ascii) (n : N) : bool := N.eqb (code c) n.

Definition LF : ascii := ascii_of_N 10.

Definition newline : string := String LF EmptyString.

(** [strings.HasPrefix] with the rest of the string after the prefix. *)
Fixpoint strip_prefix (p s : string) : option string :=
  match p with
  | EmptyString => Some s
  | String a p' =>
      match s with
      | EmptyString => None
      | String b s' => if Ascii.eqb a b then strip_prefix p' s' else None
      end
  end.

Fixpoint rev_append (s acc : string) : string :=
  match s with
  | EmptyString => acc
  | String c s' => rev_append s' (String c acc)
  end.

Definition rev (s : string) : string := rev_append s EmptyString.

(** [strings.Cut(s, sep)]: the text before and after the first occurrence
    of [sep], when there is one. *)
Fixpoint cut (sep s : string) : option (string * string) :=
  match strip_prefix sep s with
  | Some rest => Some (EmptyString, rest)
  | None =>
      match s with
      | EmptyString => None
      | String c s' =>
          match cut sep s' with
          | Some (before, after) => Some (String c before, after)
          | None => None
          end
      end
  end.

(** [strings.SplitN(s, sep, 2)] for a non-empty [sep]: two parts around the
    first separator, or the string itself as the only part. *)
Definition SplitN2 (s sep : string) : list string :=
  match cut sep s with
  | Some (before, after) => [before; after]
  | None => [s]
  end.

(** The ASCII members of [unicode.IsSpace]: tab, line feed, vertical tab,
    form feed, carriage return and space. *)
Definition ascii_space (c : ascii) : bool :=
  let n := code c in
  (N.leb 9 n && N.leb n 13) || N.eqb n 32.

(** The two-byte UTF-8 encodings of white space: U+0085 and U+00A0. *)
Definition space2 (c d : ascii) : bool :=
  byte_eqb c 194 && (byte_eqb d 133 || byte_eqb d 160).

(** The three-byte UTF-8 encodings of white space: U+1680, U+2000 to U+200A,
    U+2028, U+2029, U+202F, U+205F and U+3000. *)
Definition space3 (c d e : ascii) : bool :=
  let x := code e in
  (byte_eqb c 225 && byte_eqb d 154 && N.eqb x 128)
  || (byte_eqb c 226 && byte_eqb d 128
      && ((N.leb 128 x && N.leb x 138) || N.eqb x 168 || N.eqb x 169 || N.eqb x 175))
  || (byte_eqb c 226 && byte_eqb d 129 && N.eqb x 159)
  || (byte_eqb c 227 && byte_eqb d 128 && N.eqb x 128).

(** [strings.TrimLeftFunc(s, unicode.IsSpace)]: runes are decoded from the
    front; a byte that does not start a white-space rune stops the scan. *)
Fixpoint TrimLeft (s : string) : string :=
  match s with
  | EmptyString => s
  | String c r =>
      if ascii_space c then TrimLeft r
      else
        match r with
        | String d r' =>
            if space2 c d then TrimLeft r'
            else
              match r' with
              | String e r'' => if space3 c d e then TrimLeft r'' else s
              | EmptyString => s
              end
        | EmptyString => s
        end
  end.

(** The same scan over the reversed string, for
    [strings.TrimRightFunc(s, unicode.IsSpace)]: the last byte comes first. *)
Fixpoint TrimLeft_rev (s : string) : string :=
  match s with
  | EmptyString => s
  | String c r =>
      if ascii_space c then TrimLeft_rev r
      else
        match r with
        | String d r' =>
            if space2 d c then TrimLeft_rev r'
            else
              match r' with
              | String e r'' => if space3 e d c then TrimLeft_rev r'' else s
              | EmptyString => s
              end
        | EmptyString => s
        end
  end.

Definition TrimRight (s : string) : string := rev (TrimLeft_rev (rev s)).

(** [strings.TrimSpace]. *)
Definition TrimSpace (s : string) : string := TrimRight (TrimLeft s).

(** The line up to and including the first line feed, and what follows it;
    [None] when the string holds no line feed. *)
Fixpoint split_line (s : string) : option (string * string) :=
  match s with
  | EmptyString => None
  | String c s' =>
      if Ascii.eqb c LF then Some (String c EmptyString, s')
      else
        match split_line s' with
        | Some (l, rest) => Some (String c l, rest)
        | None => None
        end
  end.

End Bytes.

(** ** The part of [encoding/json] that [Recv] calls

    [json.Unmarshal] first checks that the whole input is one JSON value,
    then stores it into the target, field by field.  The syntax is parsed
    into [json]; the stores are the [store_*] functions below. *)

Module JSON.
Import Bytes.

#[local] Set Warnings "-register-all".

Inductive json : Type :=
| JNull
| JBool (b : bool)
| JNumber (literal : string)
| JString (s : string)
| JArray (elems : list json)
| JObject (members : list (string * json)).

Definition is_digit (c : ascii) : bool :=
  let n := code c in N.leb 48 n && N.leb n 57.

Definition digit_val (c : ascii) : Z := Z.of_N (code c) - 48.

Definition hex_val (c : ascii) : option N :=
  let n := code c in
  if N.leb 48 n && N.leb n 57 then Some (n - 48)%N
  else if N.leb 97 n && N.leb n 102 then Some (n - 87)%N
  else if N.leb 65 n && N.leb n 70 then Some (n - 55)%N
  else None.

(** [getu4] without its leading backslash and u: four hexadecimal digits. *)
Definition hex4 (s : string) : option (N * string) :=
  match s with
  | String a (String b (String c (String d r))) =>
      match hex_val a, hex_val b, hex_val c, hex_val d with
      | Some x, Some y, Some z, Some w =>
          Some (x * 4096 + y * 256 + z * 16 + w, r)%N
      | _, _, _, _ => None
      end
  | _ => None
  end.

Definition chr (n : N) : ascii := ascii_of_N n.

(** [utf8.AppendRune] for a code point that is not a surrogate. *)
Definition utf8_encode (r : N) : string :=
  (if r <? 128 then String (chr r) EmptyString
   else if r <? 2048 then
     String (chr (192 + r / 64)) (String (chr (128 + r mod 64)) EmptyString)
   else if r <? 65536 then
     String (chr (224 + r / 4096))
       (String (chr (128 + (r / 64) mod 64))
          (String (chr (128 + r mod 64)) EmptyString))
   else
     String (chr (240 + r / 262144))
       (String (chr (128 + (r / 4096) mod 64))
          (String (chr (128 + (r / 64) mod 64))
             (String (chr (128 + r mod 64)) EmptyString))))%N.

Definition replacement_char : string := utf8_encode 65533.

Definition in_range (lo hi : N) (c : ascii) : bool :=
  let n := code c in N.leb lo n && N.leb n hi.

Definition cont (c : ascii) : bool := in_range 128 191 c.

(** The size of the rune that [utf8.DecodeRune] finds at the head of a
    string starting with a byte above 127; [0] stands for an invalid
    encoding, which decodes as U+FFFD of width one. *)
Definition utf8_size (s : string) : nat :=
  match s with
  | String a (String b r) =>
      if in_range 194 223 a then (if cont b then 2 else 0)
      else
        match r with
        | String c r' =>
            let three :=
              (byte_eqb a 224 && in_range 160 191 b
               || in_range 225 236 a && cont b
               || byte_eqb a 237 && in_range 128 159 b
               || in_range 238 239 a && cont b) && cont c in
            if three then 3
            else
              match r' with
              | String d _ =>
                  if (byte_eqb a 240 && in_range 144 191 b
                      || in_range 241 243 a && cont b
                      || byte_eqb a 244 && in_range 128 143 b)
                     && cont c && cont d
                  then 4 else 0
              | EmptyString => 0
              end
        | EmptyString => 0
        end
  | _ => 0
  end.

Fixpoint take (n : nat) (s : string) : string :=
  match n, s with
  | S n', String c r => String c (take n' r)
  | _, _ => EmptyString
  end.

Fixpoint drop (n : nat) (s : string) : string :=
  match n, s with
  | S n', String c r => drop n' r
  | _, _ => s
  end.

Definition is_surrogate (r : N) : bool := (N.leb 55296 r && N.ltb r 57344).

(** [utf16.DecodeRune]: the code point of a valid surrogate pair. *)
Definition decode_surrogates (r1 r2 : N) : option N :=
  if (N.leb 55296 r1 && N.ltb r1 56320 && N.leb 56320 r2 && N.ltb r2 57344)%bool
  then Some ((r1 - 55296) * 1024 + (r2 - 56320) + 65536)%N
  else None.

(** The body of a string literal after its opening quote, unquoted as
    [unquoteBytes] does: escapes are replaced, a lone surrogate and every
    invalid UTF-8 byte become U+FFFD, a control byte is a syntax error. *)
Fixpoint unquote_body (fuel : nat) (s : string) : option (string * string) :=
  match fuel with
  | O => None
  | S f =>
      match s with
      | EmptyString => None
      | String c r =>
          let n := code c in
          if N.eqb n 34 then Some (EmptyString, r)
          else if N.ltb n 32 then None
          else if N.eqb n 92 then
            match r with
            | EmptyString => None
            | String e r' =>
                let m := code e in
                let simple (b : N) :=
                  match unquote_body f r' with
                  | Some (t, rest) => Some (String (chr b) t, rest)
                  | None => None
                  end in
                if N.eqb m 34 then simple 34%N
                else if N.eqb m 92 then simple 92%N
                else if N.eqb m 47 then simple 47%N
                else if N.eqb m 98 then simple 8%N
                else if N.eqb m 102 then simple 12%N
                else if N.eqb m 110 then simple 10%N
                else if N.eqb m 114 then simple 13%N
                else if N.eqb m 116 then simple 9%N
                else if N.eqb m 117 then
                  match hex4 r' with
                  | None => None
                  | Some (r1, after1) =>
                      let single (txt : string) (after : string) :=
                        match unquote_body f after with
                        | Some (t, rest) => Some (txt ++ t, rest)
                        | None => None
                        end in
                      if is_surrogate r1 then
                        match after1 with
                        | String b1 (String b2 after2) =>
                            if byte_eqb b1 92 && byte_eqb b2 117 then
                              match hex4 after2 with
                              | Some (r2, after3) =>
                                  match decode_surrogates r1 r2 with
                                  | Some r => single (utf8_encode r) after3
                                  | None => single replacement_char after1
                                  end
                              | None => single replacement_char after1
                              end
                            else single replacement_char after1
                        | _ => single replacement_char after1
                        end
                      else single (utf8_encode r1) after1
                  end
                else None
            end
          else if N.ltb n 128 then
            match unquote_body f r with
            | Some (t, rest) => Some (String c t, rest)
            | None => None
            end
          else
            match utf8_size s with
            | O =>
                match unquote_body f r with
                | Some (t, rest) => Some (replacement_char ++ t, rest)
                | None => None
                end
            | k =>
                match unquote_body f (drop k s) with
                | Some (t, rest) => Some (take k s ++ t, rest)
                | None => None
                end
            end
      end
  end.

(** The blanks that the scanner skips between tokens. *)
Definition is_ws (c : ascii) : bool :=
  let n := code c in
  N.eqb n 32 || N.eqb n 9 || N.eqb n 13 || N.eqb n 10.

Fixpoint skip_ws (s : string) : string :=
  match s with
  | String c r => if is_ws c then skip_ws r else s
  | EmptyString => s
  end.

Fixpoint scan_digits (s : string) : string * string :=
  match s with
  | String c r =>
      if is_digit c then let (ds, rest) := scan_digits r in (String c ds, rest)
      else (EmptyString, s)
  | EmptyString => (EmptyString, s)
  end.

(** A number literal: an optional minus, [0] or a digit string without a
    leading zero, an optional fraction, an optional exponent. *)
Definition scan_number (s : string) : option (string * string) :=
  let (sign, s1) :=
    match s with
    | String c r => if byte_eqb c 45 then (String c EmptyString, r) else (EmptyString, s)
    | EmptyString => (EmptyString, s)
    end in
  let int_part :=
    match s1 with
    | String c r =>
        if byte_eqb c 48 then Some (String c EmptyString, r)
        else if is_digit c then Some (scan_digits s1)
        else None
    | EmptyString => None
    end in
  match int_part with
  | None => None
  | Some (ip, s2) =>
      let frac :=
        match s2 with
        | String c r =>
            if byte_eqb c 46 then
              match scan_digits r with
              | (EmptyString, _) => None
              | (ds, s3) => Some (String c ds, s3)
              end
            else Some (EmptyString, s2)
        | EmptyString => Some (EmptyString, s2)
        end in
      match frac with
      | None => None
      | Some (fp, s3) =>
          let expo :=
            match s3 with
            | String c r =>
                if byte_eqb c 101 || byte_eqb c 69 then
                  let (es, r1) :=
                    match r with
                    | String d r' =>
                        if byte_eqb d 43 || byte_eqb d 45
                        then (String d EmptyString, r') else (EmptyString, r)
                    | EmptyString => (EmptyString, r)
                    end in
                  match scan_digits r1 with
                  | (EmptyString, _) => None
                  | (ds, s4) => Some (String c (es ++ ds), s4)
                  end
                else Some (EmptyString, s3)
            | EmptyString => Some (EmptyString, s3)
            end in
          match expo with
          | None => None
          | Some (ep, s4) => Some (sign ++ ip ++ fp ++ ep, s4)
          end
      end
  end.

(** The decoder refuses values nested deeper than this. *)
Definition maxNestingDepth : N := 10000.

(** One JSON value at the head of [s] (after blanks) and the text behind
    it.  [fuel] bounds the calls; every call of [parse_value] consumes a
    byte, so twice the length of the text is enough. *)
Fixpoint parse_value (fuel : nat) (depth : N) (s : string) {struct fuel}
  : option (json * string) :=
  match fuel with
  | O => None
  | S f =>
      match skip_ws s with
      | EmptyString => None
      | String c r =>
          let n := code c in
          if N.eqb n 123 then
            if N.ltb maxNestingDepth (depth + 1) then None
            else
              match skip_ws r with
              | String d r' =>
                  if byte_eqb d 125 then Some (JObject [], r')
                  else
                    match parse_members f (depth + 1) r with
                    | Some (ms, rest) => Some (JObject ms, rest)
                    | None => None
                    end
              | EmptyString => None
              end
          else if N.eqb n 91 then
            if N.ltb maxNestingDepth (depth + 1) then None
            else
              match skip_ws r with
              | String d r' =>
                  if byte_eqb d 93 then Some (JArray [], r')
                  else
                    match parse_elems f (depth + 1) r with
                    | Some (es, rest) => Some (JArray es, rest)
                    | None => None
                    end
              | EmptyString => None
              end
          else if N.eqb n 34 then
            match unquote_body (S (String.length r)) r with
            | Some (t, rest) => Some (JString t, rest)
            | None => None
            end
          else if N.eqb n 45 || is_digit c then
            match scan_number (String c r) with
            | Some (lit, rest) => Some (JNumber lit, rest)
            | None => None
            end
          else
            match strip_prefix "true" (String c r) with
            | Some rest => Some (JBool true, rest)
            | None =>
                match strip_prefix "false" (String c r) with
                | Some rest => Some (JBool false, rest)
                | None =>
                    match strip_prefix "null" (String c r) with
                    | Some rest => Some (JNull, rest)
                    | None => None
                    end
                end
            end
      end
  end

(** The elements of an array after its bracket: [value (, value)* \]]. *)
with parse_elems (fuel : nat) (depth : N) (s : string) {struct fuel}
  : option (list json * string) :=
  match fuel with
  | O => None
  | S f =>
      match parse_value f depth s with
      | None => None
      | Some (v, s1) =>
          match skip_ws s1 with
          | String c r =>
              if byte_eqb c 93 then Some ([v], r)
              else if byte_eqb c 44 then
                match parse_elems f depth r with
                | Some (vs, rest) => Some (v :: vs, rest)
                | None => None
                end
              else None
          | EmptyString => None
          end
      end
  end

(** The members of an object after its brace:
    [string : value (, string : value)* }]. *)
with parse_members (fuel : nat) (depth : N) (s : string) {struct fuel}
  : option (list (string * json) * string) :=
  match fuel with
  | O => None
  | S f =>
      match skip_ws s with
      | String q r =>
          if byte_eqb q 34 then
            match unquote_body (S (String.length r)) r with
            | None => None
            | Some (key, s1) =>
                match skip_ws s1 with
                | String c s2 =>
                    if byte_eqb c 58 then
                      match parse_value f depth s2 with
                      | None => None
                      | Some (v, s3) =>
                          match skip_ws s3 with
                          | String e r' =>
                              if byte_eqb e 125 then Some ([(key, v)], r')
                              else if byte_eqb e 44 then
                                match parse_members f depth r' with
                                | Some (ms, rest) => Some ((key, v) :: ms, rest)
                                | None => None
                                end
                              else None
                          | EmptyString => None
                          end
                      end
                    else None
                | EmptyString => None
                end
            end
          else None
      | EmptyString => None
      end
  end.

(** [checkValid] and the scan: the input is one value between blanks. *)
Definition parse (data : string) : option json :=
  match parse_value (2 * String.length data + 4) 0 data with
  | Some (v, rest) =>
      match skip_ws rest with
      | EmptyString => Some v
      | String _ _ => None
      end
  | None => None
  end.

(** *** Storing a value into a Go target

    A store returns the new content of the target and whether it went
    without an [UnmarshalTypeError].  After such an error the decoder goes
    on with the rest of the input and reports the error at the end, so the
    target keeps what the other members stored. *)

Inductive UnmarshalError : Type :=
| SyntaxError
| UnmarshalTypeError.

Fixpoint digits_value (acc : Z) (s : string) : option Z :=
  match s with
  | EmptyString => Some acc
  | String c r => if is_digit c then digits_value (10 * acc + digit_val c) r else None
  end.

Definition min_int64 : Z := - 2 ^ 63.
Definition max_int64 : Z := 2 ^ 63 - 1.

(** [strconv.ParseInt(literal, 10, 64)] on a JSON number literal. *)
Definition ParseInt (literal : string) : option Z :=
  let v :=
    match literal with
    | String c r =>
        if byte_eqb c 45 then
          match r with
          | EmptyString => None
          | _ => option_map Z.opp (digits_value 0 r)
          end
        else digits_value 0 literal
    | EmptyString => None
    end in
  match v with
  | Some z => if (Z.leb min_int64 z && Z.leb z max_int64)%bool then Some z else None
  | None => None
  end.

Definition store_string (j : json) (old : string) : string * bool :=
  match j with
  | JString s => (s, true)
  | JNull => (old, true)
  | _ => (old, false)
  end.

Definition store_int (j : json) (old : Z) : Z * bool :=
  match j with
  | JNumber lit =>
      match ParseInt lit with
      | Some z => (z, true)
      | None => (old, false)
      end
  | JNull => (old, true)
  | _ => (old, false)
  end.

Definition deref {T : Type} (zero : T) (p : option T) : T :=
  match p with
  | Some t => t
  | None => zero
  end.

(** A pointer target: [null] stores nil; any other value first allocates
    a zero value behind a nil pointer, then stores through it. *)
Definition store_ptr {T : Type} (zero : T) (store : json -> T -> T * bool)
    (j : json) (old : option T) : option T * bool :=
  match j with
  | JNull => (None, true)
  | _ => let (t, ok) := store j (deref zero old) in (Some t, ok)
  end.

Definition store_members {T : Type} (set_field : string -> json -> T -> T * bool)
    (ms : list (string * json)) (old : T) : T * bool :=
  fold_left
    (fun (acc : T * bool) (kv : string * json) =>
       let (t, ok) := acc in
       let (t', ok') := set_field (fst kv) (snd kv) t in
       (t', ok && ok'))
    ms (old, true).

(** A struct target: the members of an object are stored one after the
    other, in the order of the input, each into the field it names; the
    fields that the object does not name keep their content. *)
Definition store_struct {T : Type} (set_field : string -> json -> T -> T * bool)
    (j : json) (old : T) : T * bool :=
  match j with
  | JObject ms => store_members set_field ms old
  | JNull => (old, true)
  | _ => (old, false)
  end.

(** A Go slice: the elements up to its length, and behind them the
    elements that an earlier, longer content left in the backing array.
    Behind those the array holds zero values, up to its capacity and after
    it has grown. *)
Record Slice (T : Type) : Type := mkSlice {
  visible : list T;
  spare : list T
}.

Arguments mkSlice {T} _ _.
Arguments visible {T} _.
Arguments spare {T} _.

(** A slice over an array of its own: nothing behind its length. *)
Definition fresh_slice {T : Type} (l : list T) : Slice T := mkSlice l [].

Coercion fresh_slice : list >-> Slice.

(** The elements of an array, stored one after the other over the slots of
    the backing array: element [i] goes into slot [i], whatever an earlier
    content left there, and into a zero value where the array has no slot
    or an empty one. *)
Fixpoint store_elems {T : Type} (zero : T) (store : json -> T -> T * bool)
    (js : list json) (backing : list T) : list T * bool :=
  match js with
  | [] => ([], true)
  | j :: js' =>
      let (cur, backing') :=
        match backing with
        | x :: o => (x, o)
        | [] => (zero, [])
        end in
      let (t, ok) := store j cur in
      let (ts, ok') := store_elems zero store js' backing' in
      (t :: ts, ok && ok')
  end.

(** A slice target.  The decoder walks the backing array: it stores
    element [i] into slot [i], extending the length of the slice over the
    slots behind it as it goes, and sets the length to the number of
    elements at the end; the slots behind stay as they are.  An empty array
    gives a new, empty slice, [null] the nil slice. *)
Definition store_slice {T : Type} (zero : T) (store : json -> T -> T * bool)
    (j : json) (old : Slice T) : Slice T * bool :=
  match j with
  | JArray [] => (mkSlice [] [], true)
  | JArray js =>
      let backing := (visible old ++ spare old)%list in
      let (ts, ok) := store_elems zero store js backing in
      (mkSlice ts (skipn (length js) backing), ok)
  | JNull => (mkSlice [] [], true)
  | _ => (old, false)
  end.

Definition upper (c : ascii) : ascii :=
  let n := code c in
  if (N.leb 97 n && N.leb n 122)%bool then chr (n - 32) else c.

(** [foldName]: ASCII letters in upper case; of the runes above 127 only
    U+017F and U+212A fold to an ASCII letter (S and K). *)
Fixpoint foldName (s : string) : string :=
  match s with
  | EmptyString => EmptyString
  | String a r =>
      match r with
      | String b r' =>
          if byte_eqb a 197 && byte_eqb b 191 then String (chr 83) (foldName r')
          else
            match r' with
            | String c r'' =>
                if byte_eqb a 226 && byte_eqb b 132 && byte_eqb c 170
                then String (chr 75) (foldName r'')
                else String (upper a) (foldName r)
            | EmptyString => String (upper a) (foldName r)
            end
      | EmptyString => String (upper a) EmptyString
      end
  end.

(** A member names a field when the names are equal or equal after
    folding; the field names of this package are ASCII and fold to
    different names, so the first is a case of the second. *)
Definition names (key field : string) : bool :=
  String.eqb (foldName key) (foldName field).

(** [json.Unmarshal(data, &target)]. *)
Definition Unmarshal {T : Type} (store : json -> T -> T * bool)
    (data : string) (old : T) : T * option UnmarshalError :=
  match parse data with
  | None => (old, Some SyntaxError)
  | Some j =>
      let (t, ok) := store j old in
      (t, if ok then None else Some UnmarshalTypeError)
  end.

End JSON.

(** ** [messages.go]: the data model *)

Import Bytes JSON.

Definition StreamEvent : Type := string.

Definition StreamEventPing : StreamEvent := "ping".
Definition StreamEventError : StreamEvent := "error".
Definition StreamEventMessageStart : StreamEvent := "message_start".
Definition StreamEventMessageStop : StreamEvent := "message_stop".
Definition StreamEventMessageDelta : StreamEvent := "message_delta".
Definition StreamEventContentBlockStart : StreamEvent := "content_block_start".
Definition StreamEventContentBlockStop : StreamEvent := "content_block_stop".
Definition StreamEventContentBlockDelta : StreamEvent := "content_block_delta".

(** The eight kinds of the enumeration. *)
Definition recognized (e : StreamEvent) : bool :=
  existsb (String.eqb e)
    [StreamEventPing; StreamEventError; StreamEventMessageStart;
     StreamEventMessageStop; StreamEventMessageDelta;
     StreamEventContentBlockStart; StreamEventContentBlockStop;
     StreamEventContentBlockDelta].

(** Go's [int] addition on the 64-bit targets. *)
Definition wrap64 (z : Z) : Z := (z + 2 ^ 63) mod 2 ^ 64 - 2 ^ 63.

Definition int_add (a b : Z) : Z := wrap64 (a + b).

Record ContentBlock : Type := mkContentBlock {
  cb_Type : string;
  cb_Text : string
}.

Record Usage : Type := mkUsage {
  InputTokens : Z;
  OutputTokens : Z
}.

Record Message : Type := mkMessage {
  msg_ID : string;
  msg_Type : string;
  msg_Role : string;
  msg_Content : Slice ContentBlock;
  msg_Model : string;
  msg_StopReason : string;
  msg_StopSequence : string;
  msg_Usage : Usage
}.

Record MessageDelta : Type := mkMessageDelta {
  md_StopReason : string;
  md_StopSequence : option string
}.

Record MessageDeltaWrapper : Type := mkMessageDeltaWrapper {
  mdw_Type : string;
  mdw_Delta : MessageDelta;
  mdw_Usage : option Usage
}.

Record TextDelta : Type := mkTextDelta {
  td_Type : string;
  td_Text : string
}.

Record ContentBlockDelta : Type := mkContentBlockDelta {
  cbd_Type : string;
  cbd_Index : Z;
  cbd_Delta : TextDelta
}.

(** The pointer fields are options: [None] is nil.  A [Some] holds the
    content of the value pointed to; the event struct is the only holder of
    these pointers, so a store through one is a store into the field. *)
Record MessageStreamEvent : Type := mkMessageStreamEvent {
  ev_Type : StreamEvent;
  ev_Message : option Message;
  ev_Delta : option MessageDelta;
  ev_ContentBlock : option ContentBlock;
  ev_Index : Z
}.

Definition zero_ContentBlock : ContentBlock := mkContentBlock "" "".
Definition zero_Usage : Usage := mkUsage 0 0.
Definition zero_Message : Message := mkMessage "" "" "" [] "" "" "" zero_Usage.
Definition zero_MessageDelta : MessageDelta := mkMessageDelta "" None.
Definition zero_MessageDeltaWrapper : MessageDeltaWrapper :=
  mkMessageDeltaWrapper "" zero_MessageDelta None.
Definition zero_TextDelta : TextDelta := mkTextDelta "" "".
Definition zero_ContentBlockDelta : ContentBlockDelta :=
  mkContentBlockDelta "" 0 zero_TextDelta.
Definition zero_MessageStreamEvent : MessageStreamEvent :=
  mkMessageStreamEvent "" None None None 0.

(** *** The stores that the [json] tags of the structs describe *)

Definition set_ContentBlock (key : string) (j : json) (b : ContentBlock)
  : ContentBlock * bool :=
  if names key "type" then
    let (v, ok) := store_string j (cb_Type b) in (mkContentBlock v (cb_Text b), ok)
  else if names key "text" then
    let (v, ok) := store_string j (cb_Text b) in (mkContentBlock (cb_Type b) v, ok)
  else (b, true).

Definition store_ContentBlock : json -> ContentBlock -> ContentBlock * bool :=
  store_struct set_ContentBlock.

Definition set_Usage (key : string) (j : json) (u : Usage) : Usage * bool :=
  if names key "input_tokens" then
    let (v, ok) := store_int j (InputTokens u) in (mkUsage v (OutputTokens u), ok)
  else if names key "output_tokens" then
    let (v, ok) := store_int j (OutputTokens u) in (mkUsage (InputTokens u) v, ok)
  else (u, true).

Definition store_Usage : json -> Usage -> Usage * bool := store_struct set_Usage.

Definition set_Message (key : string) (j : json) (m : Message) : Message * bool :=
  let 'mkMessage id ty role content model reason sequence usage := m in
  if names key "id" then
    let (v, ok) := store_string j id in
    (mkMessage v ty role content model reason sequence usage, ok)
  else if names key "type" then
    let (v, ok) := store_string j ty in
    (mkMessage id v role content model reason sequence usage, ok)
  else if names key "role" then
    let (v, ok) := store_string j role in
    (mkMessage id ty v content model reason sequence usage, ok)
  else if names key "content" then
    let (v, ok) := store_slice zero_ContentBlock store_ContentBlock j content in
    (mkMessage id ty role v model reason sequence usage, ok)
  else if names key "model" then
    let (v, ok) := store_string j model in
    (mkMessage id ty role content v reason sequence usage, ok)
  else if names key "stop_reason" then
    let (v, ok) := store_string j reason in
    (mkMessage id ty role content model v sequence usage, ok)
  else if names key "stop_sequence" then
    let (v, ok) := store_string j sequence in
    (mkMessage id ty role content model reason v usage, ok)
  else if names key "usage" then
    let (v, ok) := store_Usage j usage in
    (mkMessage id ty role content model reason sequence v, ok)
  else (m, true).

Definition store_Message : json -> Message -> Message * bool :=
  store_struct set_Message.

Definition set_MessageDelta (key : string) (j : json) (d : MessageDelta)
  : MessageDelta * bool :=
  if names key "stop_reason" then
    let (v, ok) := store_string j (md_StopReason d) in
    (mkMessageDelta v (md_StopSequence d), ok)
  else if names key "stop_sequence" then
    let (v, ok) := store_ptr "" store_string j (md_StopSequence d) in
    (mkMessageDelta (md_StopReason d) v, ok)
  else (d, true).

Definition store_MessageDelta : json -> MessageDelta -> MessageDelta * bool :=
  store_struct set_MessageDelta.

Definition set_MessageDeltaWrapper (key : string) (j : json)
    (w : MessageDeltaWrapper) : MessageDeltaWrapper * bool :=
  if names key "type" then
    let (v, ok) := store_string j (mdw_Type w) in
    (mkMessageDeltaWrapper v (mdw_Delta w) (mdw_Usage w), ok)
  else if names key "delta" then
    let (v, ok) := store_MessageDelta j (mdw_Delta w) in
    (mkMessageDeltaWrapper (mdw_Type w) v (mdw_Usage w), ok)
  else if names key "usage" then
    let (v, ok) := store_ptr zero_Usage store_Usage j (mdw_Usage w) in
    (mkMessageDeltaWrapper (mdw_Type w) (mdw_Delta w) v, ok)
  else (w, true).

Definition store_MessageDeltaWrapper
  : json -> MessageDeltaWrapper -> MessageDeltaWrapper * bool :=
  store_struct set_MessageDeltaWrapper.

Definition set_TextDelta (key : string) (j : json) (d : TextDelta)
  : TextDelta * bool :=
  if names key "type" then
    let (v, ok) := store_string j (td_Type d) in (mkTextDelta v (td_Text d), ok)
  else if names key "text" then
    let (v, ok) := store_string j (td_Text d) in (mkTextDelta (td_Type d) v, ok)
  else (d, true).

Definition store_TextDelta : json -> TextDelta -> TextDelta * bool :=
  store_struct set_TextDelta.

Definition set_ContentBlockDelta (key : string) (j : json)
    (d : ContentBlockDelta) : ContentBlockDelta * bool :=
  if names key "type" then
    let (v, ok) := store_string j (cbd_Type d) in
    (mkContentBlockDelta v (cbd_Index d) (cbd_Delta d), ok)
  else if names key "index" then
    let (v, ok) := store_int j (cbd_Index d) in
    (mkContentBlockDelta (cbd_Type d) v (cbd_Delta d), ok)
  else if names key "delta" then
    let (v, ok) := store_TextDelta j (cbd_Delta d) in
    (mkContentBlockDelta (cbd_Type d) (cbd_Index d) v, ok)
  else (d, true).

Definition store_ContentBlockDelta
  : json -> ContentBlockDelta -> ContentBlockDelta * bool :=
  store_struct set_ContentBlockDelta.

Definition set_MessageStreamEvent (key : string) (j : json)
    (e : MessageStreamEvent) : MessageStreamEvent * bool :=
  let 'mkMessageStreamEvent ty message delta block index := e in
  if names key "type" then
    let (v, ok) := store_string j ty in
    (mkMessageStreamEvent v message delta block index, ok)
  else if names key "message" then
    let (v, ok) := store_ptr zero_Message store_Message j message in
    (mkMessageStreamEvent ty v delta block index, ok)
  else if names key "delta" then
    let (v, ok) := store_ptr zero_MessageDelta store_MessageDelta j delta in
    (mkMessageStreamEvent ty message v block index, ok)
  else if names key "content_block" then
    let (v, ok) := store_ptr zero_ContentBlock store_ContentBlock j block in
    (mkMessageStreamEvent ty message delta v index, ok)
  else if names key "index" then
    let (v, ok) := store_int j index in
    (mkMessageStreamEvent ty message delta block v, ok)
  else (e, true).

Definition store_MessageStreamEvent
  : json -> MessageStreamEvent -> MessageStreamEvent * bool :=
  store_struct set_MessageStreamEvent.

(** ** The byte stream and the handle *)

(** The values of Go's [error] that the package meets. *)
Inductive error : Type :=
| EOF                               (* io.EOF *)
| ReadError (msg : string)          (* another error of the byte stream *)
| JSONError (e : UnmarshalError)    (* an error of json.Unmarshal *)
| Errorf (msg : string).            (* fmt.Errorf *)

Definition is_EOF (e : error) : bool :=
  match e with
  | EOF => true
  | _ => false
  end.

(** The response body behind a [bufio.Reader]: the bytes not yet read, and
    how the stream ends after them, with [io.EOF] ([None]) or with an error
    of the connection. *)
Record Reader : Type := mkReader {
  pending : string;
  failure : option string
}.

Definition end_error (r : Reader) : error :=
  match failure r with
  | None => EOF
  | Some msg => ReadError msg
  end.

(** [reader.ReadString('\n')]: the bytes up to and including the first
    line feed; without one, the bytes that are left and the error that ends
    the stream. *)
Definition ReadString (r : Reader) : string * option error * Reader :=
  match split_line (pending r) with
  | Some (line, rest) => (line, None, mkReader rest (failure r))
  | None => (pending r, Some (end_error r), mkReader "" (failure r))
  end.

Record Response : Type := mkResponse {
  StatusCode : Z;
  Status : string;
  Body : Reader;
  BodyClosed : bool
}.

Record MessageStream : Type := mkMessageStream {
  resp : Response;
  reader : Reader;
  event : MessageStreamEvent;
  ignoreUnknownEvents : bool
}.

Definition with_reader (s : MessageStream) (r : Reader) : MessageStream :=
  mkMessageStream (resp s) r (event s) (ignoreUnknownEvents s).

Definition with_event (s : MessageStream) (e : MessageStreamEvent) : MessageStream :=
  mkMessageStream (resp s) (reader s) e (ignoreUnknownEvents s).

Definition set_Type (e : MessageStreamEvent) (t : StreamEvent) : MessageStreamEvent :=
  mkMessageStreamEvent t (ev_Message e) (ev_Delta e) (ev_ContentBlock e) (ev_Index e).

Definition set_Message_field (e : MessageStreamEvent) (m : option Message)
  : MessageStreamEvent :=
  mkMessageStreamEvent (ev_Type e) m (ev_Delta e) (ev_ContentBlock e) (ev_Index e).

Definition set_Delta (e : MessageStreamEvent) (d : option MessageDelta)
  : MessageStreamEvent :=
  mkMessageStreamEvent (ev_Type e) (ev_Message e) d (ev_ContentBlock e) (ev_Index e).

Definition set_ContentBlock_field (e : MessageStreamEvent) (b : option ContentBlock)
  : MessageStreamEvent :=
  mkMessageStreamEvent (ev_Type e) (ev_Message e) (ev_Delta e) b (ev_Index e).

Definition set_Index (e : MessageStreamEvent) (i : Z) : MessageStreamEvent :=
  mkMessageStreamEvent (ev_Type e) (ev_Message e) (ev_Delta e) (ev_ContentBlock e) i.

(** [m.Usage.OutputTokens += n]. *)
Definition add_OutputTokens (m : Message) (n : Z) : Message :=
  mkMessage (msg_ID m) (msg_Type m) (msg_Role m) (msg_Content m) (msg_Model m)
    (msg_StopReason m) (msg_StopSequence m)
    (mkUsage (InputTokens (msg_Usage m)) (int_add (OutputTokens (msg_Usage m)) n)).

(** [func (s *MessageStream) Close() error]: closes the response body. *)
Definition Close (s : MessageStream) : option error * MessageStream :=
  let r := resp s in
  (None,
   mkMessageStream (mkResponse (StatusCode r) (Status r) (Body r) true)
     (reader s) (event s) (ignoreUnknownEvents s)).

(** [func (s *MessageStream) ErrorUnknownEvent()]. *)
Definition ErrorUnknownEvent (s : MessageStream) : MessageStream :=
  mkMessageStream (resp s) (reader s) (event s) false.

(** ** [Recv] *)

(** How one turn of the [for] loop of [Recv] ends. *)
Inductive LoopStep : Type :=
| Continue (r : Reader) (eventType : StreamEvent) (data : string)
| Break (r : Reader) (eventType : StreamEvent) (data : string)
| Return (r : Reader) (err : error).

(** One turn of the loop: a line is read, trimmed, and split into field
    and value. *)
Definition loop_body (r : Reader) (eventType : StreamEvent) (data : string)
  : LoopStep :=
  let '(line, err, r') := ReadString r in
  match err with
  | Some e => if is_EOF e then Break r' eventType data else Return r' e
  | None =>
      let line := TrimSpace line in
      if String.eqb line "" then
        if String.eqb eventType StreamEventPing
        then Continue r' eventType ""
        else Break r' eventType data
      else
        match SplitN2 line ": " with
        | [field; value] =>
            if String.eqb field "event" then Continue r' value data
            else if String.eqb field "data"
            then Continue r' eventType (data ++ value ++ newline)
            else Continue r' eventType data
        | _ => Return r' (Errorf ("invalid SSE format: " ++ line))
        end
  end.

(** How the loop ends: at a [break], or at a [return] inside it. *)
Inductive LoopExit : Type :=
| Broke (r : Reader) (eventType : StreamEvent) (data : string)
| Returned (r : Reader) (err : error).

Fixpoint Recv_loop (fuel : nat) (r : Reader) (eventType : StreamEvent)
    (data : string) : option LoopExit :=
  match fuel with
  | O => None
  | S f =>
      match loop_body r eventType data with
      | Continue r' eventType' data' => Recv_loop f r' eventType' data'
      | Break r' eventType' data' => Some (Broke r' eventType' data')
      | Return r' err => Some (Returned r' err)
      end
  end.

(** What a call of [Recv] gives back: [(&s.event, nil)], a pointer to the
    event struct of the handle, whose content is the [event] of the handle
    after the call; [(nil, err)]; or a run-time panic. *)
Inductive RecvResult : Type :=
| RecvEvent
| RecvError (err : error)
| RecvPanic.

Definition one_of (e : StreamEvent) (kinds : list StreamEvent) : bool :=
  existsb (String.eqb e) kinds.

(** The part of [Recv] behind the loop: the frame is decoded by its kind
    into the event struct of the handle. *)
Definition decode (s : MessageStream) (eventType : StreamEvent) (data : string)
  : RecvResult * MessageStream :=
  if Nat.ltb 0 (String.length data) then
    let e0 := set_Type (event s) eventType in
    if one_of eventType [StreamEventMessageStart; StreamEventMessageStop] then
      match Unmarshal store_MessageStreamEvent data e0 with
      | (e1, Some err) => (RecvError (JSONError err), with_event s e1)
      | (e1, None) => (RecvEvent, with_event s e1)
      end
    else if one_of eventType [StreamEventMessageDelta] then
      match Unmarshal store_MessageDeltaWrapper data zero_MessageDeltaWrapper with
      | (_, Some err) => (RecvError (JSONError err), with_event s e0)
      | (delta, None) =>
          let e1 := set_Delta e0 (Some (mdw_Delta delta)) in
          match ev_Message e1 with
          | Some m =>
              match mdw_Usage delta with
              | Some u =>
                  (RecvEvent,
                   with_event s
                     (set_Message_field e1 (Some (add_OutputTokens m (OutputTokens u)))))
              | None => (RecvPanic, with_event s e1)
              end
          | None => (RecvEvent, with_event s e1)
          end
      end
    else if one_of eventType [StreamEventContentBlockStart; StreamEventContentBlockStop] then
      match Unmarshal store_ContentBlock data zero_ContentBlock with
      | (_, Some err) => (RecvError (JSONError err), with_event s e0)
      | (contentBlock, None) =>
          (RecvEvent, with_event s (set_ContentBlock_field e0 (Some contentBlock)))
      end
    else if one_of eventType [StreamEventContentBlockDelta] then
      match Unmarshal store_ContentBlockDelta data zero_ContentBlockDelta with
      | (_, Some err) => (RecvError (JSONError err), with_event s e0)
      | (delta, None) =>
          (RecvEvent,
           with_event s
             (set_Index
                (set_ContentBlock_field e0
                   (Some (mkContentBlock (td_Type (cbd_Delta delta))
                            (td_Text (cbd_Delta delta)))))
                (cbd_Index delta)))
      end
    else if one_of eventType [StreamEventError] then
      (RecvError (Errorf ("stream error: " ++ data)), with_event s e0)
    else if negb (ignoreUnknownEvents s) then
      (RecvError (Errorf ("unknown event type: " ++ eventType)), with_event s e0)
    else (RecvEvent, with_event s e0)
  else (RecvEvent, s).

(** The loop cannot run longer than the pending bytes have lines. *)
Definition loop_fuel (r : Reader) : nat := S (String.length (pending r)).

(** [func (s *MessageStream) Recv()], of result type [*MessageStreamEvent, error]. *)
Definition Recv (s : MessageStream) : option (RecvResult * MessageStream) :=
  match Recv_loop (loop_fuel (reader s)) (reader s) "" "" with
  | None => None
  | Some (Returned r err) => Some (RecvError err, with_reader s r)
  | Some (Broke r eventType data) => Some (decode (with_reader s r) eventType data)
  end.

(** ** [StreamMessage] *)

(** What the transport does with the request: the request cannot be built,
    [httpClient.Do] fails, or a response arrives. *)
Inductive Transport : Type :=
| RequestFails (err : error)
| DoFails (err : error)
| Responds (r : Response).

Inductive StreamMessageResult : Type :=
| Handle (s : MessageStream)                       (* (&MessageStream{...}, nil) *)
| Failure (err : error) (r : option Response).     (* (nil, err), and the response after the call *)

Definition StatusBadRequest : Z := 400.

(** [func (c *Client) StreamMessage(ctx, params)], of result type
    [*MessageStream, error], from the outcome of [newRequest] and
    [httpClient.Do]. *)
Definition StreamMessage (t : Transport) : StreamMessageResult :=
  match t with
  | RequestFails err => Failure err None
  | DoFails err => Failure err None
  | Responds r =>
      if Z.geb (StatusCode r) StatusBadRequest then
        Failure (Errorf ("anthropic: " ++ Status r))
          (Some (mkResponse (StatusCode r) (Status r) (Body r) true))
      else
        Handle (mkMessageStream r (Body r) zero_MessageStreamEvent true)
  end.

(** ** Frames on the wire and sequences of pulls *)

(** The payloads of the examples are written with an apostrophe where JSON
    has its quotation mark; [quoted] puts the quotation marks back. *)
Fixpoint quoted (s : string) : string :=
  match s with
  | EmptyString => EmptyString
  | String c r => String (if byte_eqb c 39 then chr 34 else c) (quoted r)
  end.

(** A frame as the service writes it: an [event] line, its [data] lines and
    a blank line. *)
Record Frame : Type := mkFrame {
  f_event : StreamEvent;
  f_lines : list string
}.

Fixpoint data_lines (ls : list string) : string :=
  match ls with
  | [] => ""
  | l :: ls' => "data: " ++ l ++ newline ++ data_lines ls'
  end.

Definition frame_text (f : Frame) : string :=
  "event: " ++ f_event f ++ newline ++ data_lines (f_lines f) ++ newline.

Fixpoint frames_text (fs : list Frame) : string :=
  match fs with
  | [] => ""
  | f :: fs' => frame_text f ++ frames_text fs'
  end.

(** What the [strings.Builder] of [Recv] holds after the data lines. *)
Fixpoint joined (ls : list string) : string :=
  match ls with
  | [] => ""
  | l :: ls' => l ++ newline ++ joined ls'
  end.

Definition frame_data (f : Frame) : string := joined (f_lines f).

Definition visible (c : ascii) : bool :=
  let n := code c in N.leb 33 n && N.leb n 126.

Fixpoint no_LF (s : string) : bool :=
  match s with
  | EmptyString => true
  | String c r => negb (Ascii.eqb c LF) && no_LF r
  end.

(** A value that a line carries unchanged through [ReadString] and
    [TrimSpace]: no line feed inside, and a last byte that is a visible
    ASCII character. *)
Definition clean (v : string) : bool :=
  no_LF v &&
  match rev v with
  | String c _ => visible c
  | EmptyString => false
  end.

Definition frame_ok (f : Frame) : bool :=
  clean (f_event f) && forallb clean (f_lines f).

Definition is_ping (f : Frame) : bool := String.eqb (f_event f) StreamEventPing.

(** A fresh handle on a body that holds [text] and then ends. *)
Definition stream_of (text : string) : MessageStream :=
  mkMessageStream (mkResponse 200 "200 OK" (mkReader text None) false)
    (mkReader text None) zero_MessageStreamEvent true.

(** [n] calls of [Recv] that all return [(&s.event, nil)]: the content of
    the event struct as the caller sees it after each call, and the handle
    after the last. *)
Fixpoint Recv_n (n : nat) (s : MessageStream)
  : option (list MessageStreamEvent * MessageStream) :=
  match n with
  | O => Some ([], s)
  | S n' =>
      match Recv s with
      | Some (RecvEvent, s1) =>
          match Recv_n n' s1 with
          | Some (evs, s2) => Some (event s1 :: evs, s2)
          | None => None
          end
      | _ => None
      end
  end.

(** [n] calls of [Recv] one after the other, whatever they return: what
    each call returns, with the content of the event struct after it. *)
Fixpoint Recv_trace (n : nat) (s : MessageStream)
  : list (RecvResult * MessageStreamEvent) :=
  match n with
  | O => []
  | S n' =>
      match Recv s with
      | Some (res, s') => (res, event s') :: Recv_trace n' s'
      | None => []
      end
  end.

(** The caller's loop of the package test: the text of the content block
    of each event is appended. *)
Fixpoint accumulate (content : string) (evs : list MessageStreamEvent) : string :=
  match evs with
  | [] => content
  | m :: evs' =>
      accumulate
        (match ev_ContentBlock m with
         | Some b => content ++ cb_Text b
         | None => content
         end) evs'
  end.

(** The operations of a handle. *)
Inductive Op : Type :=
| OpRecv
| OpClose
| OpErrorUnknownEvent.

Definition apply_op (s : MessageStream) (o : Op) : MessageStream :=
  match o with
  | OpRecv =>
      match Recv s with
      | Some (_, s') => s'
      | None => s
      end
  | OpClose => snd (Close s)
  | OpErrorUnknownEvent => ErrorUnknownEvent s
  end.

Definition run_ops (ops : list Op) (s : MessageStream) : MessageStream :=
  fold_left apply_op ops s.

Definition is_ErrorUnknownEvent (o : Op) : bool :=
  match o with
  | OpErrorUnknownEvent => true
  | _ => false
  end.

(** ** The vocabulary of the properties *)

Definition all_pings (fs : list Frame) : bool := forallb is_ping fs.

(** The turns of the loop that the lines of the frames take. *)
Fixpoint frames_fuel (fs : list Frame) : nat :=
  match fs with
  | [] => 0
  | f :: fs' => S (length (f_lines f) + S (frames_fuel fs'))
  end.


(** The one line of a ping frame without data. *)
Definition ping_line : string := "event: ping" ++ newline.

(** The response after [resp.Body.Close()]. *)
Definition close_body (r : Response) : Response :=
  mkResponse (StatusCode r) (Status r) (Body r) true.

(** No member of the object names the field. *)
Definition no_member (field : string) (ms : list (string * json)) : bool :=
  forallb (fun kv => negb (names (fst kv) field)) ms.

(** [&ContentBlock{Type: delta.Delta.Type, Text: delta.Delta.Text}]. *)
Definition block_of (d : ContentBlockDelta) : ContentBlock :=
  mkContentBlock (td_Type (cbd_Delta d)) (td_Text (cbd_Delta d)).

Definition fragment_of (d : ContentBlockDelta) : string := td_Text (cbd_Delta d).

(** The text fragments of the deltas, one after the other. *)
Fixpoint fragments (ds : list ContentBlockDelta) : string :=
  match ds with
  | [] => ""
  | d :: ds' => fragment_of d ++ fragments ds'
  end.

(** The frame is a [content_block_delta] frame whose data decodes, without
    error, to the delta [d]: a text fragment and a block index. *)
Definition carries (f : Frame) (d : ContentBlockDelta) : Prop :=
  frame_ok f = true
  /\ f_event f = StreamEventContentBlockDelta
  /\ f_lines f <> []
  /\ Unmarshal store_ContentBlockDelta (frame_data f) zero_ContentBlockDelta = (d, None).

Definition is_kind (k : StreamEvent) (f : Frame) : bool := String.eqb (f_event f) k.

(** The increment of output tokens that the data of a frame decodes to, as
    a [message_delta] payload with usage. *)
Definition increment (f : Frame) : option Z :=
  match Unmarshal store_MessageDeltaWrapper (frame_data f) zero_MessageDeltaWrapper with
  | (w, None) => option_map OutputTokens (mdw_Usage w)
  | (_, Some _) => None
  end.

(** A frame between [message_start] and [message_stop]: any frame of
    another kind, where a [message_delta] frame has data that decodes and
    carries usage. *)
Definition mid_ok (f : Frame) : bool :=
  frame_ok f
  && negb (one_of (f_event f) [StreamEventMessageStart; StreamEventMessageStop])
  && (if is_kind StreamEventMessageDelta f
      then match f_lines f, increment f with
           | _ :: _, Some _ => true
           | _, _ => false
           end
      else true).

(** A [message_stop] frame whose payload has no [message] member. *)
Definition stop_ok (f : Frame) : bool :=
  frame_ok f
  && is_kind StreamEventMessageStop f
  && match parse (frame_data f) with
     | Some (JObject ms) => no_member "message" ms
     | _ => true
     end.

(** The increments of the [message_delta] frames of a sequence, in their
    order. *)
Definition increments (fs : list Frame) : list Z :=
  flat_map
    (fun f =>
       if is_kind StreamEventMessageDelta f
       then match increment f with
            | Some n => [n]
            | None => []
            end
       else [])
    fs.

(** The pulls that a sequence of frames takes: pings are read over. *)
Definition pulls (fs : list Frame) : nat :=
  length (filter (fun f => negb (is_ping f)) fs).

Definition sum_Z (l : list Z) : Z := fold_right Z.add 0%Z l.

Definition in_int64 (z : Z) : bool := Z.leb min_int64 z && Z.leb z max_int64.

(** No partial sum leaves the range of [int]. *)
Fixpoint no_overflow (a : Z) (l : list Z) : bool :=
  match l with
  | [] => true
  | n :: l' => in_int64 (a + n) && no_overflow (a + n) l'
  end.

(** [m.Usage.OutputTokens]. *)
Definition output_tokens (m : Message) : Z := OutputTokens (msg_Usage m).

(** ** Frames and streams of the examples *)

Definition message_start_line : string :=
  quoted "{'type':'message_start','message':{'id':'m1','role':'assistant','content':[],'usage':{'input_tokens':10,'output_tokens':5}}}".

Definition frame_message_start : Frame := mkFrame StreamEventMessageStart [message_start_line].

Definition frame_unknown : Frame := mkFrame "future_event" ["{}"].

Definition frame_error : Frame :=
  mkFrame StreamEventError [quoted "{'type':'error','error':{'type':'overloaded_error'}}"].

Definition frame_message_delta_no_usage : Frame :=
  mkFrame StreamEventMessageDelta
    [quoted "{'type':'message_delta','delta':{'stop_reason':'end_turn'}}"].

Definition frame_message_stop : Frame :=
  mkFrame StreamEventMessageStop [quoted "{'type':'message_stop'}"].

Definition frame_fragment (text : string) : Frame :=
  mkFrame StreamEventContentBlockDelta
    [(quoted "{'type':'content_block_delta','index':0,'delta':{'type':'text_delta','text':'")
     ++ text ++ (quoted "'}}")].

Definition delta_fragment (text : string) : ContentBlockDelta :=
  mkContentBlockDelta "content_block_delta" 0 (mkTextDelta "text_delta" text).

Definition frame_message_delta (line : string) : Frame :=
  mkFrame StreamEventMessageDelta [line].

Definition delta_line_1 : string :=
  quoted "{'type':'message_delta','delta':{'stop_reason':'end_turn'},'usage':{'output_tokens':1}}".

Definition delta_line_2 : string :=
  quoted "{'type':'message_delta','delta':{},'usage':{'output_tokens':2}}".

Definition frame_ping : Frame := mkFrame StreamEventPing [quoted "{'type': 'ping'}"].

Definition sample_mid : list Frame :=
  [frame_fragment "Ok"; frame_ping; frame_message_delta delta_line_2;
   frame_unknown; frame_message_delta delta_line_1].

Definition sample_message : Message :=
  mkMessage "m1" "" "assistant" [] "" "" "" (mkUsage 10 5).

Definition scenario : string :=
  frames_text
    [mkFrame StreamEventMessageStart
       [quoted "{'type':'message_start','message':{'id':'m1','role':'assistant','content':[],'usage':{'input_tokens':10,'output_tokens':0}}}"];
     mkFrame StreamEventContentBlockStart [quoted "{'type':'text','text':''}"];
     mkFrame StreamEventContentBlockDelta
       [quoted "{'type':'content_block_delta','index':0,'delta':{'type':'text_delta','text':'Ok'}}"];
     mkFrame StreamEventMessageDelta
       [quoted "{'type':'message_delta','delta':{'stop_reason':'end_turn'},'usage':{'output_tokens':1}}"];
     mkFrame StreamEventMessageStop [quoted "{'type':'message_stop'}"]].

Definition summary (x : RecvResult * MessageStreamEvent)
  : RecvResult * StreamEvent * option Z * option string :=
  (fst x, ev_Type (snd x), option_map output_tokens (ev_Message (snd x)),
   option_map cb_Text (ev_ContentBlock (snd x))).

(** ** Lines and frames of other shapes *)

Definition head_visible (s : string) : bool :=
  match s with
  | String c _ => visible c
  | EmptyString => false
  end.

Definition has_separator (l : string) : bool :=
  match cut ": " l with
  | Some _ => true
  | None => false
  end.

(** A line that [TrimSpace] leaves unchanged and that holds no [": "]. *)
Definition malformed (l : string) : bool :=
  head_visible l && clean l && negb (has_separator l).

(** The name of a field that is neither [event] nor [data]. *)
Definition other_field (field : string) : bool :=
  head_visible field && no_LF field && negb (has_separator field)
  && negb (String.eqb field "event") && negb (String.eqb field "data").

(** The lines of a frame without the blank line that ends it. *)
Definition frame_lines_text (f : Frame) : string :=
  "event: " ++ f_event f ++ newline ++ data_lines (f_lines f).

(** The kinds whose payload [Recv] hands to [json.Unmarshal]. *)
Definition decoding_kind (e : StreamEvent) : bool :=
  one_of e
    [StreamEventMessageStart; StreamEventMessageStop; StreamEventMessageDelta;
     StreamEventContentBlockStart; StreamEventContentBlockStop;
     StreamEventContentBlockDelta].

(** ** [client.go]: the client and its requests *)

Definition defaultBaseURL : string := "https://api.anthropic.com".
Definition Second : Z := 1000000000.
Definition defaultTimeout : Z := 600 * Second.
Definition defaultMaxRetries : Z := 2.
Definition defaultUserAgent : string := "anthropic-go/0.1.0".
Definition defaultContentType : string := "application/json".
Definition defaultAccept : string := "application/json".
Definition defaultStreamAccept : string := "text/event-stream".
Definition defaultAPIVersion : string := "2023-06-01".
Definition defaultBetaVersion : string := "".

(** [http.Header]: the values under each key, the keys in the canonical
    form of [textproto.CanonicalMIMEHeaderKey]. *)
Definition Header : Type := list (string * list string).

(** [validHeaderFieldByte]: the bytes of an HTTP token. *)
Definition validHeaderFieldByte (c : ascii) : bool :=
  let n := code c in
  (N.leb 48 n && N.leb n 57) || (N.leb 97 n && N.leb n 122)
  || (N.leb 65 n && N.leb n 90)
  || existsb (N.eqb n) [33; 35; 36; 37; 38; 39; 42; 43; 45; 46; 94; 95; 96; 124; 126]%N.

Definition lower (c : ascii) : ascii :=
  let n := code c in
  if (N.leb 65 n && N.leb n 90)%bool then chr (n + 32) else c.

Fixpoint all_bytes (p : ascii -> bool) (s : string) : bool :=
  match s with
  | EmptyString => true
  | String c r => p c && all_bytes p r
  end.

(** Upper case at the start and behind each dash, lower case elsewhere. *)
Fixpoint canonical_case (up : bool) (s : string) : string :=
  match s with
  | EmptyString => EmptyString
  | String c r =>
      let c' := if up then upper c else lower c in
      String c' (canonical_case (byte_eqb c' 45) r)
  end.

(** [textproto.CanonicalMIMEHeaderKey]: a key with a byte that no token
    has is left as it is. *)
Definition CanonicalMIMEHeaderKey (s : string) : string :=
  if all_bytes validHeaderFieldByte s then canonical_case true s else s.

(** [h.Set(key, value)]. *)
Definition Header_Set (h : Header) (key value : string) : Header :=
  let k := CanonicalMIMEHeaderKey key in
  (k, [value]) :: filter (fun kv => negb (String.eqb (fst kv) k)) h.

(** [h.Values(key)], [None] for a key that the header does not hold. *)
Fixpoint lookup (h : Header) (k : string) : option (list string) :=
  match h with
  | [] => None
  | (k', vs) :: h' => if String.eqb k' k then Some vs else lookup h' k
  end.

Definition Header_Values (h : Header) (key : string) : option (list string) :=
  lookup h (CanonicalMIMEHeaderKey key).

(** [h.Get(key)]: the first value under the key, or the empty string. *)
Definition Header_Get (h : Header) (key : string) : string :=
  match Header_Values h key with
  | Some (v :: _) => v
  | _ => ""
  end.

(** What [jsonBody] makes of the parameters: the bytes of their JSON
    encoding, or the panic on an encoding error. *)
Inductive Encoded : Type :=
| EncodeFails
| Encodes (bytes : string).

(** The method, the address, the header and the body of an
    [*http.Request]. *)
Record Request : Type := mkRequest {
  req_Method : string;
  req_URL : string;
  req_Header : Header;
  req_Body : option string
}.

Inductive RequestResult : Type :=
| RequestPanics
| RequestError (err : error)
| RequestOk (req : Request).

Definition MethodPost : string := "POST".

Section ClientModel.

(** An [*http.Client] is only handed on: its type is left open, with
    [http.DefaultClient] in it. *)
Variable HTTPClient : Type.
Variable DefaultClient : HTTPClient.

(** The error, if any, of [http.NewRequestWithContext] for a method and
    an address, under the context of the call. *)
Variable NewRequest_error : string -> string -> option error.

Record Client : Type := mkClient {
  apiKey : string;
  authToken : string;
  baseURL : string;
  httpClient : HTTPClient;
  maxRetries : Z;
  userAgent : string;
  timeout : Z;
  streamAccept : string;
  apiVersion : string;
  betaVersion : string
}.

(** A [ClientOption], a function on a pointer to the client, as the change
    it makes to the client. *)
Definition ClientOption : Type := Client -> Client.

Definition WithAPIKey (v : string) : ClientOption :=
  fun c => mkClient v (authToken c) (baseURL c) (httpClient c) (maxRetries c)
             (userAgent c) (timeout c) (streamAccept c) (apiVersion c) (betaVersion c).

Definition WithAuthToken (v : string) : ClientOption :=
  fun c => mkClient (apiKey c) v (baseURL c) (httpClient c) (maxRetries c)
             (userAgent c) (timeout c) (streamAccept c) (apiVersion c) (betaVersion c).

Definition WithBaseURL (v : string) : ClientOption :=
  fun c => mkClient (apiKey c) (authToken c) v (httpClient c) (maxRetries c)
             (userAgent c) (timeout c) (streamAccept c) (apiVersion c) (betaVersion c).

Definition WithHTTPClient (v : HTTPClient) : ClientOption :=
  fun c => mkClient (apiKey c) (authToken c) (baseURL c) v (maxRetries c)
             (userAgent c) (timeout c) (streamAccept c) (apiVersion c) (betaVersion c).

Definition WithMaxRetries (v : Z) : ClientOption :=
  fun c => mkClient (apiKey c) (authToken c) (baseURL c) (httpClient c) v
             (userAgent c) (timeout c) (streamAccept c) (apiVersion c) (betaVersion c).

Definition WithUserAgent (v : string) : ClientOption :=
  fun c => mkClient (apiKey c) (authToken c) (baseURL c) (httpClient c) (maxRetries c)
             v (timeout c) (streamAccept c) (apiVersion c) (betaVersion c).

Definition WithTimeout (v : Z) : ClientOption :=
  fun c => mkClient (apiKey c) (authToken c) (baseURL c) (httpClient c) (maxRetries c)
             (userAgent c) v (streamAccept c) (apiVersion c) (betaVersion c).

Definition WithStreamAccept (v : string) : ClientOption :=
  fun c => mkClient (apiKey c) (authToken c) (baseURL c) (httpClient c) (maxRetries c)
             (userAgent c) (timeout c) v (apiVersion c) (betaVersion c).

Definition WithApiVersion (v : string) : ClientOption :=
  fun c => mkClient (apiKey c) (authToken c) (baseURL c) (httpClient c) (maxRetries c)
             (userAgent c) (timeout c) (streamAccept c) v (betaVersion c).

Definition WithBetaVersion (v : string) : ClientOption :=
  fun c => mkClient (apiKey c) (authToken c) (baseURL c) (httpClient c) (maxRetries c)
             (userAgent c) (timeout c) (streamAccept c) (apiVersion c) v.

Definition default_Client : Client :=
  mkClient "" "" defaultBaseURL DefaultClient defaultMaxRetries defaultUserAgent
    defaultTimeout defaultStreamAccept defaultAPIVersion defaultBetaVersion.

(** [func NewClient(opts ...ClientOption) *Client], with [os.Getenv] as a
    function of the name of the variable. *)
Definition NewClient (getenv : string -> string) (opts : list ClientOption) : Client :=
  let c := fold_left (fun c (opt : ClientOption) => opt c) opts default_Client in
  let c := if String.eqb (apiKey c) "" then WithAPIKey (getenv "ANTHROPIC_API_KEY") c else c in
  if String.eqb (authToken c) "" then WithAuthToken (getenv "ANTHROPIC_AUTH_TOKEN") c else c.

(** [func (c *Client) newRequest(ctx, method, path, body)]: [body] is what
    [jsonBody] made of the parameters, or [None] for a nil body. *)
Definition newRequest (c : Client) (method path : string) (body : option Encoded)
  : RequestResult :=
  let url := baseURL c ++ path in
  match body with
  | Some EncodeFails => RequestPanics
  | _ =>
      match NewRequest_error method url with
      | Some err => RequestError err
      | None =>
          let h := Header_Set [] "Content-Type" defaultContentType in
          let h := Header_Set h "Accept" defaultAccept in
          let h := Header_Set h "User-Agent" (userAgent c) in
          let h := Header_Set h "anthropic-version" (apiVersion c) in
          let h :=
            if negb (String.eqb (betaVersion c) "")
            then Header_Set h "anthropic-beta" (apiVersion c) else h in
          let h :=
            if negb (String.eqb (apiKey c) "")
            then Header_Set h "X-API-Key" (apiKey c)
            else if negb (String.eqb (authToken c) "")
                 then Header_Set h "Authorization" ("Bearer " ++ authToken c)
                 else h in
          RequestOk
            (mkRequest method url h
               match body with
               | Some (Encodes bytes) => Some bytes
               | _ => None
               end)
      end
  end.

(** [float64] values are only handed to the encoder: their type is left
    open. *)
Variable float64 : Type.

Record MessageParam : Type := mkMessageParam {
  Role : string;
  Content : string
}.

Record MessageCreateParams : Type := mkMessageCreateParams {
  MaxTokens : Z;
  Messages : list MessageParam;
  Model : string;
  Metadata : list (string * string);
  StopSequences : list string;
  Stream : bool;
  System : string;
  Temperature : float64;
  TopK : Z;
  TopP : float64
}.

(** [jsonBody] on the parameters of a message: the bytes of their JSON
    encoding, or the panic on an encoding error. *)
Variable jsonBody : MessageCreateParams -> Encoded.

(** [params.Stream = true]. *)
Definition with_Stream (params : MessageCreateParams) : MessageCreateParams :=
  mkMessageCreateParams (MaxTokens params) (Messages params) (Model params)
    (Metadata params) (StopSequences params) true (System params)
    (Temperature params) (TopK params) (TopP params).

(** The request of [CreateMessage]. *)
Definition CreateMessage_request (c : Client) (params : MessageCreateParams)
  : RequestResult :=
  newRequest c MethodPost "/v1/messages" (Some (jsonBody params)).

(** The request of [StreamMessage]: the parameters go out with their
    [Stream] set, and the [Accept] header of the request of [newRequest]
    is set again. *)
Definition StreamMessage_request (c : Client) (params : MessageCreateParams)
  : RequestResult :=
  match newRequest c MethodPost "/v1/messages" (Some (jsonBody (with_Stream params))) with
  | RequestOk req =>
      RequestOk
        (mkRequest (req_Method req) (req_URL req)
           (Header_Set (req_Header req) "Accept" (streamAccept c)) (req_Body req))
  | other => other
  end.

End ClientModel.

Arguments apiKey {HTTPClient} _.
Arguments authToken {HTTPClient} _.
Arguments baseURL {HTTPClient} _.
Arguments httpClient {HTTPClient} _.
Arguments maxRetries {HTTPClient} _.
Arguments userAgent {HTTPClient} _.
Arguments timeout {HTTPClient} _.
Arguments streamAccept {HTTPClient} _.
Arguments apiVersion {HTTPClient} _.
Arguments betaVersion {HTTPClient} _.
Arguments WithAPIKey {HTTPClient} _ _.
Arguments WithAuthToken {HTTPClient} _ _.
Arguments WithBaseURL {HTTPClient} _ _.
Arguments WithStreamAccept {HTTPClient} _ _.
Arguments WithApiVersion {HTTPClient} _ _.
Arguments WithBetaVersion {HTTPClient} _ _.
Arguments NewClient {HTTPClient} _ _ _.
Arguments newRequest {HTTPClient} _ _ _ _ _.
Arguments Stream {float64} _.
Arguments with_Stream {float64} _.
Arguments CreateMessage_request {HTTPClient} _ {float64} _ _ _.
Arguments StreamMessage_request {HTTPClient} _ {float64} _ _ _.

(** ** [client.go]: [do] and [CreateMessage] *)

(** Why [Decoder.Decode] gives no value: the body holds blanks only and
    then ends ([io.EOF]) or fails; the body holds no complete JSON value (a
    syntax error, [io.ErrUnexpectedEOF], or the error of the connection
    inside the value); the value does not fit the target. *)
Inductive BodyFailure : Type :=
| NoValue (e : error)
| BadValue
| TypeMismatch.

Definition is_composite (j : json) : bool :=
  match j with
  | JObject _ | JArray _ => true
  | _ => false
  end.

(** A string, number or literal at the top ends with the byte behind it,
    whatever that byte is (the scanner keeps its complaint about a byte
    that cannot follow for a next value, which [do] never reads), or with
    the end of the stream; an object or array ends with its bracket. *)
Definition value_ends (rest : string) (body : Reader) : bool :=
  match rest with
  | EmptyString =>
      match failure body with
      | None => true
      | Some _ => false
      end
  | String _ _ => true
  end.

(** [json.NewDecoder(body).Decode(&target)]: the first JSON value of the
    body is stored; what follows the value is not looked at. *)
Definition Decode {T : Type} (store : json -> T -> T * bool) (body : Reader) (old : T)
  : T * option BodyFailure :=
  match skip_ws (pending body) with
  | EmptyString => (old, Some (NoValue (end_error body)))
  | String _ _ =>
      match parse_value (2 * String.length (pending body) + 4) 0 (pending body) with
      | None => (old, Some BadValue)
      | Some (j, rest) =>
          if is_composite j || value_ends rest body then
            let (t, ok) := store j old in
            (t, if ok then None else Some TypeMismatch)
          else (old, Some BadValue)
      end
  end.

(** The errors of [do]: an [error] of the transport or of the status, or
    a failure of the decoder. *)
Inductive CallError : Type :=
| Failed (e : error)
| BodyFailed (f : BodyFailure).

(** [func (c *Client) do(req, v)], from the outcome of [httpClient.Do]:
    the error or the decoded target ([None] for a nil [v]), and the
    response after the call when one arrived. *)
Definition do {T : Type} (store : json -> T -> T * bool) (outcome : error + Response)
    (v : option T) : (CallError + option T) * option Response :=
  match outcome with
  | inl err => (inl (Failed err), None)
  | inr r =>
      if Z.geb (StatusCode r) StatusBadRequest then
        (inl (Failed (Errorf ("anthropic: " ++ Status r ++ " - " ++ pending (Body r)))),
         Some (close_body r))
      else
        match v with
        | None => (inr None, Some (close_body r))
        | Some old =>
            match Decode store (Body r) old with
            | (_, Some f) => (inl (BodyFailed f), Some (close_body r))
            | (t, None) => (inr (Some t), Some (close_body r))
            end
        end
  end.

(** [func (c *Client) CreateMessage(ctx, params)], from the outcome of
    [newRequest] and [httpClient.Do]. *)
Definition CreateMessage (t : Transport) : (CallError + Message) * option Response :=
  match t with
  | RequestFails err => (inl (Failed err), None)
  | DoFails err =>
      match do store_Message (inl err) (Some zero_Message) with
      | (inl e, r) => (inl e, r)
      | (inr m, r) => (inr (deref zero_Message m), r)
      end
  | Responds resp =>
      match do store_Message (inr resp) (Some zero_Message) with
      | (inl e, r) => (inl e, r)
      | (inr m, r) => (inr (deref zero_Message m), r)
      end
  end.

(** ** The fields of the event struct and of a message *)








(** ** A [content_block_delta] payload as the service writes it *)

(** The value of a payload with its type, its index as a number literal,
    and a delta with its type and its text. *)
Definition delta_payload (ty lit dty text : string) : json :=
  JObject
    [("type", JString ty); ("index", JNumber lit);
     ("delta", JObject [("type", JString dty); ("text", JString text)])].

(** The frame of a text fragment for the block of index 7. *)
Definition frame_fragment_7 (text : string) : Frame :=
  mkFrame StreamEventContentBlockDelta
    [(quoted "{'type':'content_block_delta','index':7,'delta':{'type':'text_delta','text':'")
     ++ text ++ (quoted "'}}")].

Definition delta_fragment_7 (text : string) : ContentBlockDelta :=
  mkContentBlockDelta "content_block_delta" 7 (mkTextDelta "text_delta" text).

(** * Properties *)

(** ** Strings *)

Section StringFacts.

Lemma append_assoc (a b c : string) : (a ++ b) ++ c = a ++ (b ++ c).
Proof. induction a as [|x a IH]; simpl; [reflexivity | now rewrite IH]. Qed.

Lemma append_nil_r (a : string) : a ++ "" = a.
Proof. induction a as [|x a IH]; simpl; [reflexivity | now rewrite IH]. Qed.

Lemma rev_append_app (a acc : string) : rev_append a acc = rev a ++ acc.
Proof.
  unfold rev. revert acc.
  induction a as [|x a IH]; intros acc; simpl; [reflexivity|].
  rewrite (IH (String x acc)), (IH (String x "")), append_assoc. reflexivity.
Qed.

Lemma rev_cons (x : ascii) (a : string) : rev (String x a) = rev a ++ String x "".
Proof. unfold rev at 1. simpl. apply rev_append_app. Qed.

Lemma rev_app (a b : string) : rev (a ++ b) = rev b ++ rev a.
Proof.
  induction a as [|x a IH]; simpl.
  - now rewrite append_nil_r.
  - now rewrite !rev_cons, IH, append_assoc.
Qed.

Lemma rev_involutive (a : string) : rev (rev a) = a.
Proof.
  induction a as [|x a IH]; [reflexivity|].
  rewrite rev_cons, rev_app, IH. reflexivity.
Qed.

Lemma length_append (a b : string) :
  String.length (a ++ b) = String.length a + String.length b.
Proof. induction a as [|x a IH]; simpl; [reflexivity | now rewrite IH]. Qed.

Lemma no_LF_app (a b : string) : no_LF (a ++ b) = no_LF a && no_LF b.
Proof.
  induction a as [|x a IH]; simpl; [reflexivity|].
  rewrite IH. now rewrite andb_assoc.
Qed.

Lemma split_line_app (v rest : string) :
  no_LF v = true -> split_line (v ++ newline ++ rest) = Some (v ++ newline, rest).
Proof.
  induction v as [|x v IH]; cbn [append split_line no_LF]; intros H.
  - reflexivity.
  - apply andb_prop in H as [Hx Hv].
    destruct (Ascii.eqb x LF); [discriminate|].
    now rewrite (IH Hv).
Qed.

Lemma split_line_shorter (s l rest : string) :
  split_line s = Some (l, rest) -> String.length rest < String.length s.
Proof.
  revert l. induction s as [|x s IH]; simpl; intros l H; [discriminate|].
  destruct (Ascii.eqb x LF).
  - inversion H; subst. lia.
  - destruct (split_line s) as [[l' r']|]; [|discriminate].
    inversion H; subst. specialize (IH _ eq_refl). lia.
Qed.

Lemma visible_not_space (c : ascii) : visible c = true -> ascii_space c = false.
Proof.
  unfold visible, ascii_space. intros H.
  apply andb_prop in H as [H1 H2].
  apply N.leb_le in H1, H2.
  apply orb_false_iff; split.
  - apply andb_false_iff. right. apply N.leb_gt. lia.
  - apply N.eqb_neq. lia.
Qed.

Lemma visible_code (c : ascii) : visible c = true -> (33 <= code c <= 126)%N.
Proof.
  unfold visible. intros H. apply andb_prop in H as [H1 H2].
  apply N.leb_le in H1, H2. lia.
Qed.

Lemma byte_eqb_false (c : ascii) (n : N) : code c <> n -> byte_eqb c n = false.
Proof. intros H. unfold byte_eqb. now apply N.eqb_neq. Qed.

End StringFacts.

(** ** Lines through [ReadString], [TrimSpace] and [SplitN] *)

Section Lines.

Lemma TrimLeft_head_visible (c : ascii) (r : string) :
  visible c = true -> TrimLeft (String c r) = String c r.
Proof.
  intros Hv. pose proof (visible_code c Hv) as Hc.
  cbn [TrimLeft]. rewrite (visible_not_space c Hv).
  destruct r as [|d r']; [reflexivity|].
  unfold space2. rewrite (byte_eqb_false c 194) by lia. cbn [andb].
  destruct r' as [|e r'']; [reflexivity|].
  unfold space3.
  rewrite (byte_eqb_false c 225), (byte_eqb_false c 226), (byte_eqb_false c 227) by lia.
  reflexivity.
Qed.

Lemma TrimLeft_rev_head_visible (c : ascii) (r : string) :
  visible c = true -> TrimLeft_rev (String c r) = String c r.
Proof.
  intros Hv. pose proof (visible_code c Hv) as Hc.
  cbn [TrimLeft_rev]. rewrite (visible_not_space c Hv).
  destruct r as [|d r']; [reflexivity|].
  unfold space2.
  rewrite (byte_eqb_false c 133), (byte_eqb_false c 160) by lia.
  rewrite andb_false_r.
  destruct r' as [|e r'']; [reflexivity|].
  unfold space3.
  replace (N.eqb (code c) 128) with false by (symmetry; apply N.eqb_neq; lia).
  replace (N.leb 128 (code c)) with false by (symmetry; apply N.leb_gt; lia).
  replace (N.eqb (code c) 168) with false by (symmetry; apply N.eqb_neq; lia).
  replace (N.eqb (code c) 169) with false by (symmetry; apply N.eqb_neq; lia).
  replace (N.eqb (code c) 175) with false by (symmetry; apply N.eqb_neq; lia).
  replace (N.eqb (code c) 159) with false by (symmetry; apply N.eqb_neq; lia).
  cbn [andb orb]. rewrite !andb_false_r. reflexivity.
Qed.

Lemma clean_no_LF (v : string) : clean v = true -> no_LF v = true.
Proof. unfold clean. intros H. now apply andb_prop in H. Qed.

Lemma clean_rev (v : string) :
  clean v = true -> exists c t, rev v = String c t /\ visible c = true.
Proof.
  unfold clean. intros H. apply andb_prop in H as [_ H].
  destruct (rev v) as [|c t]; [discriminate|]. now exists c, t.
Qed.

(** A line made of a head that starts with a visible byte and of a clean
    value comes out of [TrimSpace] without its line feed and otherwise
    unchanged. *)
Lemma TrimSpace_line (h : ascii) (pre v : string) :
  visible h = true -> clean v = true ->
  TrimSpace (String h pre ++ v ++ newline) = String h pre ++ v.
Proof.
  intros Hh Hv. unfold TrimSpace.
  change (String h pre ++ v ++ newline) with (String h (pre ++ v ++ newline)).
  rewrite (TrimLeft_head_visible h _ Hh).
  change (String h (pre ++ v ++ newline)) with (String h pre ++ v ++ newline).
  unfold TrimRight.
  rewrite <- append_assoc, rev_app.
  change (rev newline) with newline.
  change (newline ++ rev (String h pre ++ v))
    with (String LF (rev (String h pre ++ v))).
  change (TrimLeft_rev (String LF (rev (String h pre ++ v))))
    with (TrimLeft_rev (rev (String h pre ++ v))).
  rewrite rev_app.
  destruct (clean_rev v Hv) as (c & t & Hr & Hc).
  rewrite Hr. cbn [append].
  rewrite (TrimLeft_rev_head_visible c _ Hc).
  change (String c (t ++ rev (String h pre))) with (String c t ++ rev (String h pre)).
  rewrite <- Hr, <- rev_app. apply rev_involutive.
Qed.

Lemma ReadString_line (l rest : string) (fl : option string) :
  no_LF l = true ->
  ReadString (mkReader (l ++ newline ++ rest) fl)
  = (l ++ newline, None, mkReader rest fl).
Proof.
  intros H. unfold ReadString. cbn [pending failure].
  now rewrite (split_line_app l rest H).
Qed.

(** The turn of the loop that reads an [event] line. *)
Lemma loop_body_event_line (v rest : string) (fl : option string)
    (e : StreamEvent) (d : string) :
  clean v = true ->
  loop_body (mkReader ("event: " ++ v ++ newline ++ rest) fl) e d
  = Continue (mkReader rest fl) v d.
Proof.
  intros Hv. unfold loop_body.
  replace ("event: " ++ v ++ newline ++ rest)
    with (("event: " ++ v) ++ newline ++ rest) by now rewrite append_assoc.
  rewrite ReadString_line by (cbn; now apply clean_no_LF).
  rewrite append_assoc.
  rewrite (TrimSpace_line "e" "vent: " v eq_refl Hv).
  reflexivity.
Qed.

(** The turn of the loop that reads a [data] line. *)
Lemma loop_body_data_line (v rest : string) (fl : option string)
    (e : StreamEvent) (d : string) :
  clean v = true ->
  loop_body (mkReader ("data: " ++ v ++ newline ++ rest) fl) e d
  = Continue (mkReader rest fl) e (d ++ v ++ newline).
Proof.
  intros Hv. unfold loop_body.
  replace ("data: " ++ v ++ newline ++ rest)
    with (("data: " ++ v) ++ newline ++ rest) by now rewrite append_assoc.
  rewrite ReadString_line by (cbn; now apply clean_no_LF).
  rewrite append_assoc.
  rewrite (TrimSpace_line "d" "ata: " v eq_refl Hv).
  reflexivity.
Qed.

(** The turn of the loop that reads the blank line behind a frame. *)
Lemma loop_body_blank_line (rest : string) (fl : option string)
    (e : StreamEvent) (d : string) :
  loop_body (mkReader (newline ++ rest) fl) e d
  = if String.eqb e StreamEventPing
    then Continue (mkReader rest fl) e ""
    else Break (mkReader rest fl) e d.
Proof. reflexivity. Qed.

(** The turn of the loop that meets the end of the stream. *)
Lemma loop_body_end_of_stream (r : Reader) (e : StreamEvent) (d : string) :
  split_line (pending r) = None -> failure r = None ->
  loop_body r e d = Break (mkReader "" None) e d.
Proof.
  intros Hs Hf. unfold loop_body, ReadString, end_error.
  rewrite Hs, Hf. reflexivity.
Qed.

End Lines.

(** ** The loop of [Recv] ends *)

Section Loop.

Lemma loop_body_Continue_shorter (r r' : Reader) (e e' : StreamEvent) (d d' : string) :
  loop_body r e d = Continue r' e' d' ->
  String.length (pending r') < String.length (pending r) /\ failure r' = failure r.
Proof.
  unfold loop_body, ReadString.
  destruct (split_line (pending r)) as [[l rest]|] eqn:Hs.
  - pose proof (split_line_shorter _ _ _ Hs) as Hlt.
    destruct (String.eqb (TrimSpace l) "").
    + destruct (String.eqb e StreamEventPing); intros H; inversion H; subst; auto.
    + destruct (SplitN2 (TrimSpace l) ": ") as [|field [|value [|x tl]]];
        try discriminate.
      destruct (String.eqb field "event");
        [|destruct (String.eqb field "data")];
        intros H; inversion H; subst; auto.
  - destruct (is_EOF (end_error r)); discriminate.
Qed.

Lemma Recv_loop_total (fuel : nat) (r : Reader) (e : StreamEvent) (d : string) :
  String.length (pending r) < fuel -> exists x, Recv_loop fuel r e d = Some x.
Proof.
  revert r e d. induction fuel as [|f IH]; intros r e d Hlt; [lia|].
  cbn [Recv_loop].
  destruct (loop_body r e d) as [r' e' d'|r' e' d'|r' err] eqn:Hb; eauto.
  apply loop_body_Continue_shorter in Hb as [Hb _].
  apply IH. lia.
Qed.

Lemma Recv_loop_more_fuel (f f' : nat) (r : Reader) (e : StreamEvent) (d : string)
    (x : LoopExit) :
  Recv_loop f r e d = Some x -> f <= f' -> Recv_loop f' r e d = Some x.
Proof.
  revert f' r e d. induction f as [|f IH]; intros f' r e d H Hle; [discriminate|].
  destruct f' as [|f']; [lia|].
  cbn [Recv_loop] in *.
  destruct (loop_body r e d); auto.
  apply IH; [assumption | lia].
Qed.

(** The fuel that [Recv] gives its loop is enough for every exit that any
    fuel reaches. *)
Lemma Recv_loop_any_fuel (f : nat) (r : Reader) (e : StreamEvent) (d : string)
    (x : LoopExit) :
  Recv_loop f r e d = Some x -> Recv_loop (loop_fuel r) r e d = Some x.
Proof.
  intros H.
  destruct (Recv_loop_total (loop_fuel r) r e d) as [y Hy]; [unfold loop_fuel; lia|].
  rewrite Hy.
  pose proof (Recv_loop_more_fuel _ (Nat.max f (loop_fuel r)) _ _ _ _ H (Nat.le_max_l _ _)) as H1.
  pose proof (Recv_loop_more_fuel _ (Nat.max f (loop_fuel r)) _ _ _ _ Hy (Nat.le_max_r _ _)) as H2.
  congruence.
Qed.

(** [Recv] returns on every handle: the fuel of the model never runs out. *)
Lemma Recv_total (s : MessageStream) : exists res s', Recv s = Some (res, s').
Proof.
  unfold Recv.
  destruct (Recv_loop_total (loop_fuel (reader s)) (reader s) "" "") as [x Hx];
    [unfold loop_fuel; lia|].
  rewrite Hx. destruct x as [r e d|r err].
  - destruct (decode (with_reader s r) e d) as [res s'] eqn:Hd. now exists res, s'.
  - now exists (RecvError err), (with_reader s r).
Qed.

Lemma Recv_of_loop (f : nat) (s : MessageStream) (x : LoopExit) :
  Recv_loop f (reader s) "" "" = Some x ->
  Recv s = Some
    match x with
    | Returned r err => (RecvError err, with_reader s r)
    | Broke r e d => decode (with_reader s r) e d
    end.
Proof.
  intros H. unfold Recv. rewrite (Recv_loop_any_fuel _ _ _ _ _ H).
  destruct x; reflexivity.
Qed.

(** The data lines of a frame are gathered in the builder. *)
Lemma Recv_loop_data_lines (ls : list string) (n : nat) (rest : string)
    (fl : option string) (e : StreamEvent) (d : string) :
  forallb clean ls = true ->
  Recv_loop (length ls + n) (mkReader (data_lines ls ++ rest) fl) e d
  = Recv_loop n (mkReader rest fl) e (d ++ joined ls).
Proof.
  revert d. induction ls as [|l ls IH]; intros d H.
  - cbn. now rewrite append_nil_r.
  - cbn [forallb] in H. apply andb_prop in H as [Hl Hls].
    cbn [length Nat.add Recv_loop data_lines joined].
    rewrite !append_assoc.
    rewrite (loop_body_data_line l _ fl e d Hl).
    rewrite (IH _ Hls). now rewrite !append_assoc.
Qed.

(** A whole frame in front of the reader: a ping is dropped and the loop
    goes on behind it with the name still set; another frame ends the loop
    with its name and its data. *)
Lemma Recv_loop_frame (f : Frame) (n : nat) (rest : string) (fl : option string)
    (e : StreamEvent) (d : string) :
  frame_ok f = true ->
  Recv_loop (S (length (f_lines f) + S n)) (mkReader (frame_text f ++ rest) fl) e d
  = if is_ping f
    then Recv_loop n (mkReader rest fl) StreamEventPing ""
    else Some (Broke (mkReader rest fl) (f_event f) (d ++ frame_data f)).
Proof.
  intros H. unfold frame_ok in H. apply andb_prop in H as [He Hl].
  unfold frame_text. cbn [Recv_loop].
  rewrite !append_assoc.
  rewrite (loop_body_event_line (f_event f) _ fl e d He).
  rewrite (Recv_loop_data_lines _ (S n) _ fl _ _ Hl).
  cbn [Recv_loop]. rewrite loop_body_blank_line.
  unfold is_ping, frame_data.
  destruct (String.eqb (f_event f) StreamEventPing) eqn:Hp; [|reflexivity].
  apply String.eqb_eq in Hp. now rewrite Hp.
Qed.

(** Pings in front of a frame are read over within the same pull. *)
Lemma Recv_loop_pings (ps : list Frame) (n : nat) (rest : string)
    (fl : option string) (e : StreamEvent) :
  forallb frame_ok ps = true -> all_pings ps = true -> ps <> [] ->
  Recv_loop (frames_fuel ps + n) (mkReader (frames_text ps ++ rest) fl) e ""
  = Recv_loop n (mkReader rest fl) StreamEventPing "".
Proof.
  revert e. induction ps as [|p ps IH]; intros e Hok Hp Hne; [congruence|].
  cbn [forallb all_pings] in Hok, Hp.
  apply andb_prop in Hok as [Hok1 Hok2]. apply andb_prop in Hp as [Hp1 Hp2].
  cbn [frames_fuel frames_text]. rewrite append_assoc.
  replace (S (length (f_lines p) + S (frames_fuel ps)) + n)
    with (S (length (f_lines p) + S (frames_fuel ps + n))) by lia.
  rewrite (Recv_loop_frame p _ _ fl e "" Hok1), Hp1.
  destruct ps as [|q ps']; [reflexivity|].
  apply IH; auto. discriminate.
Qed.

End Loop.

(** ** One pull on a frame *)

Section Pull.

(** A pull on a reader that holds a frame, behind any number of pings,
    decodes that frame and leaves what follows it unread. *)
Lemma Recv_frame (s : MessageStream) (ps : list Frame) (f : Frame)
    (rest : string) (fl : option string) :
  reader s = mkReader (frames_text ps ++ frame_text f ++ rest) fl ->
  forallb frame_ok ps = true -> all_pings ps = true ->
  frame_ok f = true -> is_ping f = false ->
  Recv s = Some (decode (with_reader s (mkReader rest fl)) (f_event f) (frame_data f)).
Proof.
  intros Hr Hok Hp Hf Hn.
  apply (Recv_of_loop (frames_fuel ps + S (length (f_lines f) + 1)) s
           (Broke (mkReader rest fl) (f_event f) (frame_data f))).
  rewrite Hr.
  destruct ps as [|p ps'].
  - cbn [frames_fuel frames_text Nat.add append].
    rewrite (Recv_loop_frame f 0 rest fl "" "" Hf), Hn. reflexivity.
  - rewrite (Recv_loop_pings (p :: ps') _ _ fl "" Hok Hp) by discriminate.
    rewrite (Recv_loop_frame f 0 rest fl StreamEventPing "" Hf), Hn. reflexivity.
Qed.

Lemma decode_no_data (s : MessageStream) (e : StreamEvent) :
  decode s e "" = (RecvEvent, s).
Proof. reflexivity. Qed.

Lemma length_joined_pos (l : string) (ls : list string) :
  Nat.ltb 0 (String.length (joined (l :: ls))) = true.
Proof.
  cbn [joined]. rewrite length_append. apply Nat.ltb_lt.
  rewrite length_append. cbn. lia.
Qed.

Lemma reader_with_reader (s : MessageStream) (r : Reader) :
  reader (with_reader s r) = r.
Proof. reflexivity. Qed.

End Pull.

(** ** End of stream *)

(** No call of [Recv] returns [io.EOF]: the loop returns only errors of the
    reader other than [io.EOF], and the decoder makes its own. *)
Lemma Recv_loop_never_EOF (f : nat) (r r' : Reader) (e : StreamEvent) (d : string)
    (err : error) :
  Recv_loop f r e d = Some (Returned r' err) -> err <> EOF.
Proof.
  revert r e d. induction f as [|f IH]; intros r e d H; [discriminate|].
  cbn [Recv_loop] in H.
  destruct (loop_body r e d) as [r1 e1 d1|r1 e1 d1|r1 err1] eqn:Hb.
  - eapply IH; eassumption.
  - discriminate.
  - inversion H; subst. clear H.
    unfold loop_body in Hb.
    destruct (ReadString r) as [[l oe] r2].
    destruct oe as [e0|].
    + destruct (is_EOF e0) eqn:He; [discriminate|].
      inversion Hb; subst. intros ->. discriminate.
    + destruct (String.eqb (TrimSpace l) "").
      * destruct (String.eqb e StreamEventPing); discriminate.
      * destruct (SplitN2 (TrimSpace l) ": ") as [|fd [|v [|x tl]]];
          try (inversion Hb; subst; discriminate).
        destruct (String.eqb fd "event"); [discriminate|].
        destruct (String.eqb fd "data"); discriminate.
Qed.

Lemma decode_never_EOF (s s' : MessageStream) (e : StreamEvent) (d : string)
    (res : RecvResult) :
  decode s e d = (res, s') -> res <> RecvError EOF.
Proof.
  unfold decode. intros H.
  repeat match type of H with
         | (if ?b then _ else _) = _ => destruct b
         | (match ?x with _ => _ end) = _ => destruct x
         end;
    inversion H; subst; discriminate.
Qed.

Lemma Recv_never_EOF (s s' : MessageStream) (res : RecvResult) :
  Recv s = Some (res, s') -> res <> RecvError EOF.
Proof.
  unfold Recv.
  destruct (Recv_loop (loop_fuel (reader s)) (reader s) "" "") as [[r e d|r err]|] eqn:Hl;
    intros H; [| |discriminate].
  - inversion H as [Hd]. eapply decode_never_EOF; eassumption.
  - inversion H; subst. intros Heq. inversion Heq; subst.
    eapply Recv_loop_never_EOF; eauto.
Qed.

(** A pull whose loop is left with an empty builder skips the decoder: it
    returns the pointer to the event struct and leaves the struct as it
    was. *)
Lemma Recv_without_data (f : nat) (s : MessageStream) (r : Reader) (e : StreamEvent) :
  Recv_loop f (reader s) "" "" = Some (Broke r e "") ->
  Recv s = Some (RecvEvent, with_reader s r).
Proof. intros H. exact (Recv_of_loop f s _ H). Qed.

(** C1 (the code departs from the claim).  When the byte stream reports its
    end before the pull has read any line, [Recv] returns neither the
    stream-exhausted signal [io.EOF] nor any other error: it returns
    [(&s.event, nil)], the pointer to the event struct of the handle, whose
    content is what the pull before left there. *)
Theorem C1_Recv_end_of_stream_returns_stale_event (s : MessageStream) :
  split_line (pending (reader s)) = None ->
  failure (reader s) = None ->
  Recv s = Some (RecvEvent, with_reader s (mkReader "" None))
  /\ event (with_reader s (mkReader "" None)) = event s.
Proof.
  intros Hs Hf. split; [|reflexivity].
  apply (Recv_of_loop 1 s (Broke (mkReader "" None) "" "")).
  cbn [Recv_loop]. now rewrite (loop_body_end_of_stream _ _ _ Hs Hf).
Qed.

Lemma C1_witness :
  Recv (stream_of "") = Some (RecvEvent, stream_of "")
  /\ event (stream_of "") = zero_MessageStreamEvent.
Proof.
  exact (C1_Recv_end_of_stream_returns_stale_event (stream_of "") eq_refl eq_refl).
Defined.

(** ** Pings *)


(** ** [StreamMessage] and the tolerance flag *)

(** C9, as far as the code goes.  A response whose status code is 400 or
    more gives an immediate error that carries the status, and no handle:
    the body is closed and never reaches a reader.  A response whose
    status code is below 400, 2xx or not, gives a handle that reads the
    body from its start. *)
Theorem C9_error_status_gives_no_handle (r : Response) :
  ((StatusBadRequest <= StatusCode r)%Z ->
   StreamMessage (Responds r)
   = Failure (Errorf ("anthropic: " ++ Status r)) (Some (close_body r)))
  /\ ((StatusCode r < StatusBadRequest)%Z ->
      StreamMessage (Responds r)
      = Handle (mkMessageStream r (Body r) zero_MessageStreamEvent true)).
Proof.
  unfold StreamMessage.
  destruct (Z.geb (StatusCode r) StatusBadRequest) eqn:Hg;
    rewrite Z.geb_leb in Hg; [apply Z.leb_le in Hg | apply Z.leb_gt in Hg];
    split; intros H; try reflexivity; lia.
Qed.

Lemma C9_witness :
  StreamMessage (Responds (mkResponse 429 "429 Too Many Requests" (mkReader "" None) false))
  = Failure (Errorf "anthropic: 429 Too Many Requests")
      (Some (mkResponse 429 "429 Too Many Requests" (mkReader "" None) true))
  /\ StreamMessage (Responds (mkResponse 304 "304 Not Modified" (mkReader "" None) false))
     = Handle (mkMessageStream
                 (mkResponse 304 "304 Not Modified" (mkReader "" None) false)
                 (mkReader "" None) zero_MessageStreamEvent true).
Proof.
  split.
  - apply (proj1 (C9_error_status_gives_no_handle
                    (mkResponse 429 "429 Too Many Requests" (mkReader "" None) false))).
    unfold StatusBadRequest. cbn. lia.
  - apply (proj2 (C9_error_status_gives_no_handle
                    (mkResponse 304 "304 Not Modified" (mkReader "" None) false))).
    unfold StatusBadRequest. cbn. lia.
Defined.

(** C9 as stated fails below 400: a response with status 304, which is not
    a 2xx status, gives a handle whose reader is the body. *)
Lemma C9_counterexample :
  ~ (forall r : Response,
       ~ (200 <= StatusCode r < 300)%Z ->
       exists err o, StreamMessage (Responds r) = Failure err o).
Proof.
  intros H.
  destruct (H (mkResponse 304 "304 Not Modified" (mkReader "" None) false))
    as (err & o & Hf); [cbn; lia|].
  discriminate Hf.
Qed.

Lemma decode_keeps_flag (s : MessageStream) (e : StreamEvent) (d : string) :
  ignoreUnknownEvents (snd (decode s e d)) = ignoreUnknownEvents s
  /\ resp (snd (decode s e d)) = resp s
  /\ reader (snd (decode s e d)) = reader s.
Proof.
  unfold decode.
  repeat match goal with
         | |- context [if ?b then _ else _] => destruct b
         | |- context [match ?x with _ => _ end] => destruct x
         end; repeat split; reflexivity.
Qed.

Lemma Recv_keeps_flag (s s' : MessageStream) (res : RecvResult) :
  Recv s = Some (res, s') -> ignoreUnknownEvents s' = ignoreUnknownEvents s.
Proof.
  unfold Recv.
  destruct (Recv_loop (loop_fuel (reader s)) (reader s) "" "") as [[r e d|r err]|];
    intros H; inversion H as [Hd]; [|reflexivity].
  pose proof (decode_keeps_flag (with_reader s r) e d) as [Hk _].
  rewrite Hd in Hk. exact Hk.
Qed.

Lemma apply_op_flag (s : MessageStream) (o : Op) :
  ignoreUnknownEvents (apply_op s o)
  = ignoreUnknownEvents s && negb (is_ErrorUnknownEvent o).
Proof.
  destruct o; cbn.
  - destruct (Recv s) as [[res s']|] eqn:Hr.
    + rewrite (Recv_keeps_flag _ _ _ Hr). now rewrite andb_true_r.
    + now rewrite andb_true_r.
  - now rewrite andb_true_r.
  - now rewrite andb_false_r.
Qed.

Lemma run_ops_flag (ops : list Op) (s : MessageStream) :
  ignoreUnknownEvents (run_ops ops s)
  = ignoreUnknownEvents s && negb (existsb is_ErrorUnknownEvent ops).
Proof.
  unfold run_ops. revert s.
  induction ops as [|o ops IH]; intros s; cbn [fold_left existsb].
  - now rewrite andb_true_r.
  - rewrite IH, apply_op_flag, negb_orb. now rewrite andb_assoc.
Qed.

(** C10.  A handle comes out of [StreamMessage] with the tolerance of
    unknown events enabled; after any sequence of [Recv], [Close] and
    [ErrorUnknownEvent] the tolerance is enabled exactly when the sequence
    holds no [ErrorUnknownEvent], so that only this operation changes the
    flag, it only disables it, and nothing enables it again. *)
Theorem C10_tolerance_flag (t : Transport) (s : MessageStream) (ops : list Op) :
  StreamMessage t = Handle s ->
  ignoreUnknownEvents s = true
  /\ ignoreUnknownEvents (run_ops ops s) = negb (existsb is_ErrorUnknownEvent ops)
  /\ (forall more : list Op,
        ignoreUnknownEvents (run_ops ops s) = false ->
        ignoreUnknownEvents (run_ops more (run_ops ops s)) = false).
Proof.
  intros H.
  assert (Hs : ignoreUnknownEvents s = true).
  { destruct t as [err|err|r]; cbn in H; try discriminate.
    destruct (Z.geb (StatusCode r) StatusBadRequest); [discriminate|].
    inversion H; subst. reflexivity. }
  split; [exact Hs|]. split.
  - now rewrite run_ops_flag, Hs.
  - intros more Hf. now rewrite run_ops_flag, Hf.
Qed.

Lemma C10_witness :
  let s := stream_of ping_line in
  ignoreUnknownEvents s = true
  /\ ignoreUnknownEvents (run_ops [OpRecv; OpErrorUnknownEvent; OpRecv; OpClose] s)
     = negb (existsb is_ErrorUnknownEvent [OpRecv; OpErrorUnknownEvent; OpRecv; OpClose])
  /\ (forall more : list Op,
        ignoreUnknownEvents (run_ops [OpRecv; OpErrorUnknownEvent; OpRecv; OpClose] s) = false ->
        ignoreUnknownEvents
          (run_ops more (run_ops [OpRecv; OpErrorUnknownEvent; OpRecv; OpClose] s)) = false).
Proof.
  exact (C10_tolerance_flag
           (Responds (mkResponse 200 "200 OK" (mkReader ping_line None) false))
           (stream_of ping_line) [OpRecv; OpErrorUnknownEvent; OpRecv; OpClose] eq_refl).
Defined.

(** ** Frames that the decoder does not decode: unknown kinds and [error] *)

Lemma decode_unrecognized (s : MessageStream) (e : StreamEvent) (d : string) :
  recognized e = false ->
  Nat.ltb 0 (String.length d) = true ->
  decode s e d
  = (if ignoreUnknownEvents s then RecvEvent
     else RecvError (Errorf ("unknown event type: " ++ e)),
     with_event s (set_Type (event s) e)).
Proof.
  intros Hr Hd. unfold recognized in Hr. cbn [existsb] in Hr.
  repeat (apply orb_false_iff in Hr as [? Hr]).
  unfold decode, one_of. cbn [existsb]. rewrite Hd.
  repeat match goal with
         | H : String.eqb e _ = false |- _ => rewrite H; clear H
         end.
  cbn [orb]. now destruct (ignoreUnknownEvents s).
Qed.

(** C5, as far as the code goes.  A frame that carries data under a name
    outside the eight kinds: with the tolerance enabled [Recv] returns the
    event struct with its type set to the raw name and its message, delta,
    content block and index as the pulls before left them; with the
    tolerance disabled it returns the unknown-event error with the name. *)
Theorem C5_unknown_event (s : MessageStream) (f : Frame) (l : string)
    (ls : list string) (rest : string) (fl : option string) :
  frame_ok f = true ->
  recognized (f_event f) = false ->
  f_lines f = l :: ls ->
  reader s = mkReader (frame_text f ++ rest) fl ->
  exists s',
    Recv s = Some (if ignoreUnknownEvents s then RecvEvent
                   else RecvError (Errorf ("unknown event type: " ++ f_event f)), s')
    /\ event s' = set_Type (event s) (f_event f)
    /\ reader s' = mkReader rest fl.
Proof.
  intros Hok Hr Hl Hrd.
  assert (Hp : is_ping f = false).
  { unfold is_ping. unfold recognized in Hr. cbn [existsb] in Hr.
    now apply orb_false_iff in Hr as [Hr _]. }
  exists (with_event (with_reader s (mkReader rest fl)) (set_Type (event s) (f_event f))).
  split; [|split; reflexivity].
  rewrite (Recv_frame s [] f rest fl Hrd eq_refl eq_refl Hok Hp).
  rewrite decode_unrecognized; [reflexivity | assumption |].
  unfold frame_data. rewrite Hl. apply length_joined_pos.
Qed.

Lemma C5_witness :
  exists s',
    Recv (stream_of (frame_text frame_unknown ++ ""))
    = Some (RecvEvent, s')
    /\ event s' = set_Type zero_MessageStreamEvent "future_event"
    /\ reader s' = mkReader "" None.
Proof.
  exact (C5_unknown_event (stream_of (frame_text frame_unknown ++ "")) frame_unknown
           "{}" [] "" None eq_refl eq_refl eq_refl eq_refl).
Defined.

(** C5 as stated fails on a handle that has decoded a message before: the
    tolerated unknown frame comes back with that message still in the event
    struct, not with an absent payload. *)
Lemma C5_counterexample :
  exists e1 e2 s',
    Recv_n 2 (stream_of (frames_text [frame_message_start; frame_unknown]))
    = Some ([e1; e2], s')
    /\ ev_Type e2 = "future_event"
    /\ recognized (ev_Type e2) = false
    /\ ev_Message e2 <> None.
Proof.
  vm_compute. do 3 eexists. split; [reflexivity|].
  repeat split. discriminate.
Qed.

(** C6, as far as the code goes.  A frame named [error] that carries data
    (at least one data line) makes [Recv] return an
    error, and no event, whose text holds the data of the frame as the
    loop gathered it; the pull returns at the end of that frame, whatever
    the stream holds behind it, and leaves that unread. *)
Theorem C6_error_event (s : MessageStream) (f : Frame) (l : string)
    (ls : list string) (rest : string) (fl : option string) :
  frame_ok f = true ->
  f_event f = StreamEventError ->
  f_lines f = l :: ls ->
  reader s = mkReader (frame_text f ++ rest) fl ->
  exists s',
    Recv s = Some (RecvError (Errorf ("stream error: " ++ frame_data f)), s')
    /\ reader s' = mkReader rest fl.
Proof.
  intros Hok He Hl Hrd.
  assert (Hp : is_ping f = false) by (unfold is_ping; now rewrite He).
  exists (with_event (with_reader s (mkReader rest fl)) (set_Type (event s) StreamEventError)).
  split; [|reflexivity].
  rewrite (Recv_frame s [] f rest fl Hrd eq_refl eq_refl Hok Hp).
  assert (Hd : Nat.ltb 0 (String.length (frame_data f)) = true).
  { unfold frame_data. rewrite Hl. apply length_joined_pos. }
  unfold decode. rewrite Hd, He. reflexivity.
Qed.

Lemma C6_witness :
  exists s',
    Recv (stream_of (frame_text frame_error ++ frame_text frame_message_start))
    = Some (RecvError (Errorf ("stream error: " ++ frame_data frame_error)), s')
    /\ reader s' = mkReader (frame_text frame_message_start) None.
Proof.
  exact (C6_error_event
           (stream_of (frame_text frame_error ++ frame_text frame_message_start))
           frame_error _ [] (frame_text frame_message_start) None
           eq_refl eq_refl eq_refl eq_refl).
Defined.

(** C6 as stated fails on an [error] frame without data lines: the loop
    is left with an empty builder, the decoder is skipped, and [Recv]
    returns the event struct with a nil error; the next pull goes on with
    the frame behind it. *)
Lemma C6_counterexample :
  map (fun x => (fst x, ev_Type (snd x)))
    (Recv_trace 2
       (stream_of (frame_text (mkFrame StreamEventError []) ++ frame_text frame_message_start)))
  = [(RecvEvent, ""); (RecvEvent, StreamEventMessageStart)].
Proof. vm_compute. reflexivity. Qed.

(** ** Stores into structs, member by member *)

Section Stores.

Context {T : Type} (set_field : string -> json -> T -> T * bool).

Lemma fold_store_flag (ms : list (string * json)) (t : T) (b : bool) :
  fold_left
    (fun (acc : T * bool) (kv : string * json) =>
       let (t, ok) := acc in
       let (t', ok') := set_field (fst kv) (snd kv) t in
       (t', ok && ok'))
    ms (t, b)
  = (fst (store_members set_field ms t), b && snd (store_members set_field ms t)).
Proof.
  unfold store_members. revert t b.
  induction ms as [|[k j] ms IH]; intros t b; cbn [fold_left].
  - now rewrite andb_true_r.
  - cbn [fst snd]. destruct (set_field k j t) as [t' ok'].
    rewrite (IH t' (b && ok')), (IH t' (true && ok')).
    cbn [fst snd andb]. now rewrite andb_assoc.
Qed.

Lemma store_members_cons (k : string) (j : json) (ms : list (string * json)) (t : T) :
  store_members set_field ((k, j) :: ms) t
  = (fst (store_members set_field ms (fst (set_field k j t))),
     snd (set_field k j t) && snd (store_members set_field ms (fst (set_field k j t)))).
Proof.
  unfold store_members at 1. cbn [fold_left fst snd].
  destruct (set_field k j t) as [t' ok']. cbn [andb fst snd].
  apply fold_store_flag.
Qed.

(** What every member keeps, the whole object keeps. *)
Lemma store_members_keeps (P : T -> Prop) (ms : list (string * json)) :
  Forall (fun kv => forall t, P t -> P (fst (set_field (fst kv) (snd kv) t))) ms ->
  forall t, P t -> P (fst (store_members set_field ms t)).
Proof.
  induction 1 as [|[k j] ms Hkv Hms IH]; intros t Ht.
  - exact Ht.
  - rewrite store_members_cons. cbn [fst]. apply IH. now apply Hkv.
Qed.


End Stores.

Lemma no_member_Forall (field : string) (ms : list (string * json)) :
  no_member field ms = true ->
  Forall (fun kv => names (fst kv) field = false) ms.
Proof.
  unfold no_member. intros H. apply Forall_forall. intros kv Hin.
  rewrite forallb_forall in H. specialize (H kv Hin).
  now apply negb_true_iff in H.
Qed.

(** A wrapper whose payload has no [usage] member keeps a nil usage. *)
Lemma set_MessageDeltaWrapper_keeps_Usage (k : string) (j : json)
    (w : MessageDeltaWrapper) :
  names k "usage" = false ->
  mdw_Usage (fst (set_MessageDeltaWrapper k j w)) = mdw_Usage w.
Proof.
  intros H. unfold set_MessageDeltaWrapper.
  destruct (names k "type"); [now destruct (store_string j (mdw_Type w))|].
  destruct (names k "delta"); [now destruct (store_MessageDelta j (mdw_Delta w))|].
  now rewrite H.
Qed.

Lemma store_wrapper_without_usage (ms : list (string * json)) :
  no_member "usage" ms = true ->
  mdw_Usage (fst (store_members set_MessageDeltaWrapper ms zero_MessageDeltaWrapper))
  = None.
Proof.
  intros H.
  apply (store_members_keeps set_MessageDeltaWrapper (fun w => mdw_Usage w = None));
    [|reflexivity].
  eapply Forall_impl; [|exact (no_member_Forall _ _ H)].
  intros [k j] Hk w Hw. cbn [fst snd] in *.
  now rewrite set_MessageDeltaWrapper_keeps_Usage.
Qed.

(** An event struct whose payload has no [message] member keeps its
    message. *)
Lemma set_MessageStreamEvent_keeps_Message (k : string) (j : json)
    (e : MessageStreamEvent) :
  names k "message" = false ->
  ev_Message (fst (set_MessageStreamEvent k j e)) = ev_Message e.
Proof.
  intros H. destruct e as [ty m d b i]. unfold set_MessageStreamEvent.
  destruct (names k "type"); [now destruct (store_string j ty)|].
  rewrite H.
  destruct (names k "delta");
    [now destruct (store_ptr zero_MessageDelta store_MessageDelta j d)|].
  destruct (names k "content_block");
    [now destruct (store_ptr zero_ContentBlock store_ContentBlock j b)|].
  destruct (names k "index"); [now destruct (store_int j i)|].
  reflexivity.
Qed.

Lemma store_event_without_message (ms : list (string * json)) (e : MessageStreamEvent) :
  no_member "message" ms = true ->
  ev_Message (fst (store_members set_MessageStreamEvent ms e)) = ev_Message e.
Proof.
  intros H.
  apply (store_members_keeps set_MessageStreamEvent
           (fun e' => ev_Message e' = ev_Message e)); [|reflexivity].
  eapply Forall_impl; [|exact (no_member_Forall _ _ H)].
  intros [k j] Hk e' He'. cbn [fst snd] in *.
  now rewrite set_MessageStreamEvent_keeps_Message.
Qed.



(** ** [message_delta] without usage *)

Lemma decode_message_delta (s : MessageStream) (d : string) :
  Nat.ltb 0 (String.length d) = true ->
  decode s StreamEventMessageDelta d
  = let e0 := set_Type (event s) StreamEventMessageDelta in
    match Unmarshal store_MessageDeltaWrapper d zero_MessageDeltaWrapper with
    | (_, Some err) => (RecvError (JSONError err), with_event s e0)
    | (delta, None) =>
        let e1 := set_Delta e0 (Some (mdw_Delta delta)) in
        match ev_Message e1 with
        | Some m =>
            match mdw_Usage delta with
            | Some u =>
                (RecvEvent,
                 with_event s
                   (set_Message_field e1 (Some (add_OutputTokens m (OutputTokens u)))))
            | None => (RecvPanic, with_event s e1)
            end
        | None => (RecvEvent, with_event s e1)
        end
    end.
Proof. intros Hd. unfold decode. rewrite Hd. reflexivity. Qed.

(** C3 (the code departs from the claim).  A [message_delta] frame whose
    payload is an object without [usage] member, and which decodes without
    error, pulled while the event struct holds a message: [Recv] sets the
    delta on the event struct and then reads the output tokens through the
    nil usage pointer, which is a run-time panic, not a return. *)
Theorem C3_message_delta_without_usage_panics (s : MessageStream) (f : Frame)
    (l : string) (ls : list string) (rest : string) (fl : option string)
    (ms : list (string * json)) (m : Message) :
  frame_ok f = true ->
  f_event f = StreamEventMessageDelta ->
  f_lines f = l :: ls ->
  reader s = mkReader (frame_text f ++ rest) fl ->
  parse (frame_data f) = Some (JObject ms) ->
  no_member "usage" ms = true ->
  snd (store_members set_MessageDeltaWrapper ms zero_MessageDeltaWrapper) = true ->
  ev_Message (event s) = Some m ->
  exists s',
    Recv s = Some (RecvPanic, s')
    /\ ev_Delta (event s')
       = Some (mdw_Delta
                 (fst (store_members set_MessageDeltaWrapper ms zero_MessageDeltaWrapper))).
Proof.
  intros Hok He Hl Hrd Hp Hnu Hst Hm.
  assert (Hping : is_ping f = false) by (unfold is_ping; now rewrite He).
  assert (Hd : Nat.ltb 0 (String.length (frame_data f)) = true).
  { unfold frame_data. rewrite Hl. apply length_joined_pos. }
  rewrite (Recv_frame s [] f rest fl Hrd eq_refl eq_refl Hok Hping).
  rewrite He, (decode_message_delta _ _ Hd).
  unfold Unmarshal. rewrite Hp.
  unfold store_MessageDeltaWrapper, store_struct.
  pose proof (store_wrapper_without_usage ms Hnu) as Hu.
  destruct (store_members set_MessageDeltaWrapper ms zero_MessageDeltaWrapper)
    as [w ok]. cbn [fst snd] in *. subst ok.
  cbv zeta. cbn [ev_Message set_Delta set_Type event with_reader].
  rewrite Hm, Hu. eexists. split; reflexivity.
Qed.

Lemma C3_witness :
  exists s',
    Recv (with_event (stream_of (frame_text frame_message_delta_no_usage ++ ""))
            (set_Message_field zero_MessageStreamEvent (Some zero_Message)))
    = Some (RecvPanic, s')
    /\ ev_Delta (event s') = Some (mkMessageDelta "end_turn" None).
Proof.
  exact (C3_message_delta_without_usage_panics
           (with_event (stream_of (frame_text frame_message_delta_no_usage ++ ""))
              (set_Message_field zero_MessageStreamEvent (Some zero_Message)))
           frame_message_delta_no_usage _ [] "" None
           [("type", JString "message_delta");
            ("delta", JObject [("stop_reason", JString "end_turn")])]
           zero_Message
           eq_refl eq_refl eq_refl eq_refl eq_refl eq_refl eq_refl eq_refl).
Defined.

(** The same on the wire: a [message_start] frame, then a [message_delta]
    frame without usage; the first pull returns the event, the second
    panics. *)
Lemma message_delta_without_usage_on_the_wire :
  map fst
    (Recv_trace 2
       (stream_of (frames_text [frame_message_start; frame_message_delta_no_usage])))
  = [RecvEvent; RecvPanic].
Proof. vm_compute. reflexivity. Qed.

(** ** [message_start] and [message_stop] *)

Lemma decode_message_start_stop (s : MessageStream) (e : StreamEvent) (d : string) :
  Nat.ltb 0 (String.length d) = true ->
  one_of e [StreamEventMessageStart; StreamEventMessageStop] = true ->
  decode s e d
  = match Unmarshal store_MessageStreamEvent d (set_Type (event s) e) with
    | (e1, Some err) => (RecvError (JSONError err), with_event s e1)
    | (e1, None) => (RecvEvent, with_event s e1)
    end.
Proof. intros Hd He. unfold decode. rewrite Hd, He. reflexivity. Qed.


Section FieldsKept.












End FieldsKept.




(** ** [content_block_delta] *)

Lemma Recv_content_block_delta (s : MessageStream) (f : Frame) (d : ContentBlockDelta)
    (rest : string) (fl : option string) :
  carries f d ->
  reader s = mkReader (frame_text f ++ rest) fl ->
  Recv s
  = Some (RecvEvent,
          with_event (with_reader s (mkReader rest fl))
            (set_Index
               (set_ContentBlock_field
                  (set_Type (event s) StreamEventContentBlockDelta)
                  (Some (block_of d)))
               (cbd_Index d))).
Proof.
  intros (Hok & He & Hl & Hu) Hrd.
  assert (Hp : is_ping f = false) by (unfold is_ping; now rewrite He).
  assert (Hd : Nat.ltb 0 (String.length (frame_data f)) = true).
  { unfold frame_data. destruct (f_lines f) as [|l ls]; [congruence|].
    apply length_joined_pos. }
  rewrite (Recv_frame s [] f rest fl Hrd eq_refl eq_refl Hok Hp).
  unfold decode. rewrite Hd, He.
  change (one_of StreamEventContentBlockDelta
            [StreamEventMessageStart; StreamEventMessageStop]) with false.
  change (one_of StreamEventContentBlockDelta [StreamEventMessageDelta]) with false.
  change (one_of StreamEventContentBlockDelta
            [StreamEventContentBlockStart; StreamEventContentBlockStop]) with false.
  change (one_of StreamEventContentBlockDelta [StreamEventContentBlockDelta]) with true.
  cbv iota. rewrite Hu. reflexivity.
Qed.

(** What the decoder reads out of a payload of the shape that the service
    writes: the type, the index that the number literal stands for, and
    the type and the text of the delta. *)
Lemma Unmarshal_delta_payload (data ty lit dty text : string) (i : Z) :
  parse data = Some (delta_payload ty lit dty text) ->
  ParseInt lit = Some i ->
  Unmarshal store_ContentBlockDelta data zero_ContentBlockDelta
  = (mkContentBlockDelta ty i (mkTextDelta dty text), None).
Proof.
  intros Hp Hi. unfold Unmarshal. rewrite Hp.
  unfold delta_payload, store_ContentBlockDelta, store_struct.
  rewrite !store_members_cons.
  change (set_ContentBlockDelta "type" (JString ty) zero_ContentBlockDelta)
    with (mkContentBlockDelta ty 0 zero_TextDelta, true).
  cbn [fst snd].
  assert (Hidx : set_ContentBlockDelta "index" (JNumber lit)
                   (mkContentBlockDelta ty 0 zero_TextDelta)
                 = (mkContentBlockDelta ty i zero_TextDelta, true)).
  { change (set_ContentBlockDelta "index" (JNumber lit)
              (mkContentBlockDelta ty 0 zero_TextDelta))
      with (let (v, ok) := store_int (JNumber lit) 0 in
            (mkContentBlockDelta ty v zero_TextDelta, ok)).
    unfold store_int. now rewrite Hi. }
  rewrite Hidx. cbn [fst snd]. reflexivity.
Qed.

(** C8.  Every [content_block_delta] frame that carries a text fragment
    and a block index comes back from [Recv] as an event whose content
    block is made of the fragment and whose index is that index; so the
    caller that appends the text of each event it is given rebuilds the
    fragments in their order, whatever their number.  For a payload of the
    shape that the service writes, the fragment is the text of its delta
    and the index is the number that its index literal stands for: the
    pull on such a frame returns the event with the block of that text and
    with that index. *)
Theorem C8_content_block_delta (fs : list Frame) (ds : list ContentBlockDelta)
    (s : MessageStream) (rest : string) (fl : option string) :
  Forall2 carries fs ds ->
  reader s = mkReader (frames_text fs ++ rest) fl ->
  (exists evs s',
     Recv_n (length fs) s = Some (evs, s')
     /\ map (fun e => (ev_ContentBlock e, ev_Index e)) evs
        = map (fun d => (Some (block_of d), cbd_Index d)) ds
     /\ (forall content, accumulate content evs = content ++ fragments ds)
     /\ reader s' = mkReader rest fl)
  /\ (forall f ty lit dty text i,
        frame_ok f = true ->
        f_event f = StreamEventContentBlockDelta ->
        f_lines f <> [] ->
        parse (frame_data f) = Some (delta_payload ty lit dty text) ->
        ParseInt lit = Some i ->
        carries f (mkContentBlockDelta ty i (mkTextDelta dty text))
        /\ forall s0 rest0 fl0,
             reader s0 = mkReader (frame_text f ++ rest0) fl0 ->
             exists s0',
               Recv s0 = Some (RecvEvent, s0')
               /\ ev_ContentBlock (event s0') = Some (mkContentBlock dty text)
               /\ ev_Index (event s0') = i
               /\ reader s0' = mkReader rest0 fl0).
Proof.
  intros H Hrd. split.
  2:{ intros f ty lit dty text i Hok He Hl Hp Hi.
      assert (Hc : carries f (mkContentBlockDelta ty i (mkTextDelta dty text))).
      { repeat split; try assumption.
        now apply (Unmarshal_delta_payload _ ty lit dty text i). }
      split; [exact Hc|].
      intros s0 rest0 fl0 Hrd0. eexists. split.
      - exact (Recv_content_block_delta s0 f _ rest0 fl0 Hc Hrd0).
      - repeat split. }
  revert s Hrd.
  induction H as [|f d fs ds Hfd Hrest IH]; intros s Hrd.
  - exists [], s. cbn. repeat split; auto.
    intros content. now rewrite append_nil_r.
  - cbn [frames_text] in Hrd. rewrite append_assoc in Hrd.
    pose proof (Recv_content_block_delta s f d _ fl Hfd Hrd) as Hpull.
    destruct (IH _ (reader_with_reader _ (mkReader (frames_text fs ++ rest) fl)
                    : reader (with_event (with_reader s (mkReader (frames_text fs ++ rest) fl))
                                (set_Index
                                   (set_ContentBlock_field
                                      (set_Type (event s) StreamEventContentBlockDelta)
                                      (Some (block_of d)))
                                   (cbd_Index d))) = _))
      as (evs & s' & Hn & Hmap & Hacc & Hrd').
    eexists (_ :: evs), s'.
    cbn [length Recv_n]. rewrite Hpull, Hn.
    split; [reflexivity|]. split; [|split; [|exact Hrd']].
    + cbn [map event with_event ev_ContentBlock ev_Index set_Index]. now rewrite Hmap.
    + intros content.
      cbn [accumulate event with_event ev_ContentBlock set_Index set_ContentBlock_field].
      rewrite Hacc. cbn [fragments block_of cb_Text]. unfold fragment_of.
      now rewrite append_assoc.
Qed.

(** Three frames on the wire with the fragments A, B and C for the block
    of index 7: each payload is of the shape above, with the literal 7;
    the three pulls give the fragments with the index 7, and the caller
    has ABC. *)
Lemma C8_witness :
  (exists evs s',
     Recv_n 3 (stream_of (frames_text [frame_fragment_7 "A"; frame_fragment_7 "B";
                                       frame_fragment_7 "C"] ++ ""))
     = Some (evs, s')
     /\ map (fun e => (ev_ContentBlock e, ev_Index e)) evs
        = [(Some (mkContentBlock "text_delta" "A"), 7%Z);
           (Some (mkContentBlock "text_delta" "B"), 7%Z);
           (Some (mkContentBlock "text_delta" "C"), 7%Z)]
     /\ (forall content, accumulate content evs = content ++ "ABC")
     /\ reader s' = mkReader "" None)
  /\ (exists s',
        Recv (stream_of (frame_text (frame_fragment_7 "A") ++ "")) = Some (RecvEvent, s')
        /\ ev_ContentBlock (event s') = Some (mkContentBlock "text_delta" "A")
        /\ ev_Index (event s') = 7%Z
        /\ reader s' = mkReader "" None).
Proof.
  assert (Hpay : forall t d,
             frame_ok (frame_fragment_7 t) = true ->
             parse (frame_data (frame_fragment_7 t))
             = Some (delta_payload "content_block_delta" "7" "text_delta" d) ->
             carries (frame_fragment_7 t)
               (mkContentBlockDelta "content_block_delta" 7 (mkTextDelta "text_delta" d))
             /\ forall s0 rest0 fl0,
                  reader s0 = mkReader (frame_text (frame_fragment_7 t) ++ rest0) fl0 ->
                  exists s0',
                    Recv s0 = Some (RecvEvent, s0')
                    /\ ev_ContentBlock (event s0') = Some (mkContentBlock "text_delta" d)
                    /\ ev_Index (event s0') = 7%Z
                    /\ reader s0' = mkReader rest0 fl0).
  { intros t d Hok Hp.
    refine (proj2 (C8_content_block_delta [] [] (stream_of "") "" None
                     (Forall2_nil _) eq_refl)
              (frame_fragment_7 t) "content_block_delta" "7" "text_delta" d 7%Z
              Hok eq_refl _ Hp eq_refl).
    discriminate. }
  split.
  - refine (proj1 (C8_content_block_delta
                     [frame_fragment_7 "A"; frame_fragment_7 "B"; frame_fragment_7 "C"]
                     [delta_fragment_7 "A"; delta_fragment_7 "B"; delta_fragment_7 "C"]
                     (stream_of (frames_text [frame_fragment_7 "A"; frame_fragment_7 "B";
                                              frame_fragment_7 "C"] ++ ""))
                     "" None _ eq_refl)).
    repeat apply Forall2_cons; try apply Forall2_nil;
      apply Hpay; reflexivity.
  - exact (proj2 (Hpay "A" "A" eq_refl eq_refl)
             (stream_of (frame_text (frame_fragment_7 "A") ++ "")) "" None eq_refl).
Defined.

(** ** The running count of output tokens *)

Section Tokens.

Lemma wrap64_small (z : Z) : in_int64 z = true -> wrap64 z = z.
Proof.
  unfold in_int64, min_int64, max_int64, wrap64. intros H.
  apply andb_prop in H as [H1 H2]. apply Z.leb_le in H1, H2.
  rewrite Z.mod_small; lia.
Qed.

Lemma fold_int_add_no_overflow (l : list Z) (a : Z) :
  no_overflow a l = true -> fold_left int_add l a = (a + sum_Z l)%Z.
Proof.
  revert a. induction l as [|n l IH]; intros a H; cbn [fold_left sum_Z fold_right].
  - lia.
  - cbn [no_overflow] in H. apply andb_prop in H as [H1 H2].
    unfold int_add at 2. rewrite (wrap64_small _ H1), (IH _ H2).
    fold (sum_Z l). lia.
Qed.

Lemma frames_text_app (fs gs : list Frame) :
  frames_text (fs ++ gs) = frames_text fs ++ frames_text gs.
Proof.
  induction fs as [|f fs IH]; cbn [frames_text app]; [reflexivity|].
  now rewrite IH, append_assoc.
Qed.

Lemma decode_keeps_Message (s : MessageStream) (e : StreamEvent) (d : string) :
  one_of e [StreamEventMessageStart; StreamEventMessageStop] = false ->
  one_of e [StreamEventMessageDelta] = false ->
  ev_Message (event (snd (decode s e d))) = ev_Message (event s).
Proof.
  intros H1 H2. unfold decode. rewrite H1, H2.
  repeat match goal with
         | |- context [if ?b then _ else _] => destruct b
         | |- context [match ?x with _ => _ end] => destruct x
         end; reflexivity.
Qed.

Lemma decode_increment (s : MessageStream) (f : Frame) (n : Z) (m : Message) :
  f_lines f <> [] ->
  increment f = Some n ->
  ev_Message (event s) = Some m ->
  decode s StreamEventMessageDelta (frame_data f)
  = (RecvEvent,
     with_event s
       (set_Message_field
          (set_Delta (set_Type (event s) StreamEventMessageDelta)
             (Some (mdw_Delta
                      (fst (Unmarshal store_MessageDeltaWrapper (frame_data f)
                              zero_MessageDeltaWrapper)))))
          (Some (add_OutputTokens m n)))).
Proof.
  intros Hl Hi Hm.
  assert (Hd : Nat.ltb 0 (String.length (frame_data f)) = true).
  { unfold frame_data. destruct (f_lines f) as [|l ls]; [congruence|].
    apply length_joined_pos. }
  rewrite (decode_message_delta _ _ Hd). unfold increment in Hi.
  destruct (Unmarshal store_MessageDeltaWrapper (frame_data f) zero_MessageDeltaWrapper)
    as [w [err|]]; [discriminate|].
  cbv zeta. cbn [ev_Message set_Delta set_Type fst]. rewrite Hm.
  destruct (mdw_Usage w) as [u|]; [|discriminate].
  cbn [option_map] in Hi. inversion Hi; subst. reflexivity.
Qed.

Lemma decode_stop_keeps_Message (s : MessageStream) (f : Frame) :
  stop_ok f = true ->
  ev_Message (event (snd (decode s StreamEventMessageStop (frame_data f))))
  = ev_Message (event s).
Proof.
  unfold stop_ok. intros H. apply andb_prop in H as [_ Hp].
  destruct (Nat.ltb 0 (String.length (frame_data f))) eqn:Hd.
  - rewrite (decode_message_start_stop s StreamEventMessageStop _ Hd eq_refl).
    unfold Unmarshal.
    destruct (parse (frame_data f)) as [j|]; [|reflexivity].
    unfold store_MessageStreamEvent, store_struct.
    destruct j as [|b|lit|str|es|ms]; try reflexivity.
    pose proof (store_event_without_message ms
                  (set_Type (event s) StreamEventMessageStop) Hp) as Hk.
    destruct (store_members set_MessageStreamEvent ms
                (set_Type (event s) StreamEventMessageStop)) as [e1 ok].
    cbn [fst] in Hk. now destruct ok.
  - unfold decode. rewrite Hd. reflexivity.
Qed.

End Tokens.

Section Accumulation.

Lemma apply_Recv (s s' : MessageStream) (res : RecvResult) :
  Recv s = Some (res, s') -> apply_op s OpRecv = s'.
Proof. intros H. cbn [apply_op]. now rewrite H. Qed.

Lemma run_pulls_S (n : nat) (s : MessageStream) :
  run_ops (repeat OpRecv (S n)) s = run_ops (repeat OpRecv n) (apply_op s OpRecv).
Proof. reflexivity. Qed.

Lemma is_kind_eq (k : StreamEvent) (f : Frame) : is_kind k f = true -> f_event f = k.
Proof. unfold is_kind. apply String.eqb_eq. Qed.

(** The pulls over the frames between [message_start] and [message_stop],
    and over the [message_stop] frame: every [message_delta] frame adds its
    increment to the message held, no other frame touches it. *)
Lemma pulls_through (stop : Frame) (tail : string) (fl : option string) :
  stop_ok stop = true ->
  forall (mid ps : list Frame) (s : MessageStream) (m : Message),
    forallb frame_ok ps = true -> all_pings ps = true ->
    forallb mid_ok mid = true ->
    reader s = mkReader (frames_text ps ++ frames_text mid ++ frame_text stop ++ tail) fl ->
    ev_Message (event s) = Some m ->
    exists m',
      ev_Message (event (run_ops (repeat OpRecv (pulls mid + 1)) s)) = Some m'
      /\ output_tokens m' = fold_left int_add (increments mid) (output_tokens m)
      /\ reader (run_ops (repeat OpRecv (pulls mid + 1)) s) = mkReader tail fl.
Proof.
  intros Hstop.
  assert (Hstop' := Hstop). unfold stop_ok in Hstop'.
  apply andb_prop in Hstop' as [Hs1 _]. apply andb_prop in Hs1 as [Hsok Hsk].
  pose proof (is_kind_eq _ _ Hsk) as Hse.
  induction mid as [|f mid IH]; intros ps s m Hpok Hpp Hmid Hrd Hm.
  - cbn [frames_text append] in Hrd.
    assert (Hnp : is_ping stop = false) by (unfold is_ping; now rewrite Hse).
    pose proof (Recv_frame s ps stop tail fl Hrd Hpok Hpp Hsok Hnp) as Hpull.
    rewrite Hse in Hpull.
    destruct (decode (with_reader s (mkReader tail fl)) StreamEventMessageStop
                (frame_data stop)) as [res s1] eqn:Hdec.
    cbn [pulls filter length Nat.add]. rewrite run_pulls_S, (apply_Recv _ _ _ Hpull).
    cbn [repeat run_ops fold_left increments flat_map].
    pose proof (decode_stop_keeps_Message (with_reader s (mkReader tail fl)) stop Hstop) as Hk.
    pose proof (decode_keeps_flag (with_reader s (mkReader tail fl))
                  StreamEventMessageStop (frame_data stop)) as (_ & _ & Hr).
    rewrite Hdec in Hk, Hr. cbn [snd] in Hk, Hr.
    exists m. split; [now rewrite Hk|]. split; [reflexivity|exact Hr].
  - cbn [forallb] in Hmid. apply andb_prop in Hmid as [Hf Hmid].
    unfold mid_ok in Hf. apply andb_prop in Hf as [Hf Hdelta].
    apply andb_prop in Hf as [Hfok Hfss]. apply negb_true_iff in Hfss.
    destruct (is_ping f) eqn:Hping.
    + (* a ping: the next pull reads over it *)
      assert (Hfe : f_event f = StreamEventPing) by (now apply String.eqb_eq).
      assert (Hnd : is_kind StreamEventMessageDelta f = false)
        by (unfold is_kind; now rewrite Hfe).
      destruct (IH (ps ++ [f])%list s m) as (m' & H1 & H2 & H3); auto.
      * rewrite forallb_app. cbn [forallb]. now rewrite Hpok, Hfok.
      * unfold all_pings. rewrite forallb_app. cbn [forallb].
        unfold all_pings in Hpp. now rewrite Hpp, Hping.
      * rewrite Hrd. f_equal. cbn [frames_text].
        rewrite frames_text_app. cbn [frames_text].
        rewrite append_nil_r. now rewrite !append_assoc.
      * exists m'.
        unfold pulls in *. cbn [filter]. rewrite Hping. cbn [negb].
        unfold increments in *. cbn [flat_map]. rewrite Hnd. cbn [app].
        auto.
    + (* another frame: one pull *)
      cbn [frames_text] in Hrd. rewrite (append_assoc (frame_text f)) in Hrd.
      pose proof (Recv_frame s ps f _ fl Hrd Hpok Hpp Hfok Hping) as Hpull.
      set (r1 := mkReader (frames_text mid ++ frame_text stop ++ tail) fl) in *.
      destruct (decode (with_reader s r1) (f_event f) (frame_data f)) as [res s1] eqn:Hdec.
      pose proof (decode_keeps_flag (with_reader s r1) (f_event f) (frame_data f))
        as (_ & _ & Hr).
      rewrite Hdec in Hr. cbn [snd reader with_reader] in Hr.
      assert (Hpl : pulls (f :: mid) + 1 = S (pulls mid + 1)).
      { unfold pulls. cbn [filter]. rewrite Hping. cbn [negb length]. lia. }
      rewrite Hpl, run_pulls_S, (apply_Recv _ _ _ Hpull).
      destruct (is_kind StreamEventMessageDelta f) eqn:Hk.
      * (* message_delta: the increment is added *)
        pose proof (is_kind_eq _ _ Hk) as Hfe.
        destruct (f_lines f) as [|l ls] eqn:Hl; [discriminate|].
        destruct (increment f) as [n|] eqn:Hi; [|discriminate].
        rewrite Hfe in Hdec.
        rewrite (decode_increment (with_reader s r1) f n m) in Hdec;
          [|rewrite Hl; discriminate|exact Hi|exact Hm].
        inversion Hdec; subst s1.
        destruct (IH [] _ (add_OutputTokens m n) eq_refl eq_refl Hmid Hr eq_refl)
          as (m' & H1 & H2 & H3).
        exists m'. split; [exact H1|]. split; [|exact H3].
        unfold increments. cbn [flat_map]. rewrite Hk, Hi. cbn [app fold_left].
        exact H2.
      * (* a frame that does not touch the message *)
        assert (Hnd : one_of (f_event f) [StreamEventMessageDelta] = false).
        { unfold one_of. cbn [existsb]. unfold is_kind in Hk. now rewrite Hk. }
        pose proof (decode_keeps_Message (with_reader s r1) (f_event f) (frame_data f)
                      Hfss Hnd) as Hkeep.
        rewrite Hdec in Hkeep. cbn [snd event with_reader] in Hkeep.
        destruct (IH [] s1 m eq_refl eq_refl Hmid Hr) as (m' & H1 & H2 & H3);
          [now rewrite Hkeep|].
        exists m'. split; [exact H1|]. split; [|exact H3].
        unfold increments. cbn [flat_map]. rewrite Hk. cbn [app]. exact H2.
Qed.

End Accumulation.

Lemma pulls_app (fs gs : list Frame) : pulls (fs ++ gs) = pulls fs + pulls gs.
Proof.
  unfold pulls. induction fs as [|f fs IH]; cbn [app filter]; [reflexivity|].
  destruct (negb (is_ping f)); cbn [length]; now rewrite IH.
Qed.

(** C2, as far as the code goes.  A sequence of frames that begins with a
    [message_start] frame and ends with a [message_stop] frame without
    message of its own, with pings, content-block frames, frames of unknown
    kinds and [message_delta] frames carrying usage between them: after
    all its pulls the message held by the event struct counts the output
    tokens that the [message_start] frame left there plus the increments of
    all the [message_delta] frames, added one after the other in Go's
    [int]; that is their sum on top of the starting count when no partial
    sum overflows. *)
Theorem C2_output_tokens_accumulate (s : MessageStream) (start : Frame)
    (mid : list Frame) (stop : Frame) (tail : string) (fl : option string)
    (m0 : Message) :
  frame_ok start = true ->
  f_event start = StreamEventMessageStart ->
  f_lines start <> [] ->
  ev_Message (fst (Unmarshal store_MessageStreamEvent (frame_data start)
                     (set_Type (event s) StreamEventMessageStart))) = Some m0 ->
  forallb mid_ok mid = true ->
  stop_ok stop = true ->
  reader s = mkReader (frames_text (start :: mid ++ [stop]) ++ tail) fl ->
  exists m,
    ev_Message (event (run_ops (repeat OpRecv (pulls (start :: mid ++ [stop]))) s))
    = Some m
    /\ output_tokens m = fold_left int_add (increments mid) (output_tokens m0)
    /\ (no_overflow (output_tokens m0) (increments mid) = true ->
        output_tokens m = (output_tokens m0 + sum_Z (increments mid))%Z).
Proof.
  intros Hok He Hl Hm0 Hmid Hstop Hrd.
  assert (Hp : is_ping start = false) by (unfold is_ping; now rewrite He).
  assert (Hsp : is_ping stop = false).
  { unfold stop_ok in Hstop. apply andb_prop in Hstop as [Hs _].
    apply andb_prop in Hs as [_ Hk]. apply is_kind_eq in Hk.
    unfold is_ping. now rewrite Hk. }
  assert (Hd : Nat.ltb 0 (String.length (frame_data start)) = true).
  { unfold frame_data. destruct (f_lines start) as [|l ls]; [congruence|].
    apply length_joined_pos. }
  assert (Hpl : pulls (start :: mid ++ [stop]) = S (pulls mid + 1)).
  { change (start :: mid ++ [stop])%list with ([start] ++ mid ++ [stop])%list.
    rewrite !pulls_app. unfold pulls at 1 3. cbn [filter]. rewrite Hp, Hsp. reflexivity. }
  cbn [frames_text] in Hrd. rewrite frames_text_app in Hrd.
  cbn [frames_text] in Hrd. rewrite append_nil_r, !append_assoc in Hrd.
  pose proof (Recv_frame s [] start _ fl Hrd eq_refl eq_refl Hok Hp) as Hpull.
  rewrite He in Hpull.
  rewrite (decode_message_start_stop _ StreamEventMessageStart _ Hd eq_refl) in Hpull.
  cbn [event with_reader] in Hpull.
  destruct (Unmarshal store_MessageStreamEvent (frame_data start)
              (set_Type (event s) StreamEventMessageStart)) as [e1 oerr] eqn:Hu.
  cbn [fst] in Hm0.
  set (s1 := with_event
               (with_reader s (mkReader (frames_text mid ++ frame_text stop ++ tail) fl))
               e1) in *.
  assert (Happly : apply_op s OpRecv = s1).
  { destruct oerr; eapply apply_Recv; exact Hpull. }
  rewrite Hpl, run_pulls_S, Happly.
  destruct (pulls_through stop tail fl Hstop mid [] s1 m0 eq_refl eq_refl Hmid
              eq_refl Hm0) as (m & H1 & H2 & _).
  exists m. split; [exact H1|]. split; [exact H2|].
  intros Hno. rewrite H2. now apply fold_int_add_no_overflow.
Qed.

Lemma C2_witness :
  exists m,
    ev_Message
      (event (run_ops
                (repeat OpRecv (pulls (frame_message_start :: sample_mid ++ [frame_message_stop])))
                (stream_of (frames_text (frame_message_start :: sample_mid ++ [frame_message_stop])
                            ++ ""))))
    = Some m
    /\ output_tokens m = fold_left int_add (increments sample_mid) (output_tokens sample_message)
    /\ (no_overflow (output_tokens sample_message) (increments sample_mid) = true ->
        output_tokens m = (output_tokens sample_message + sum_Z (increments sample_mid))%Z).
Proof.
  refine (C2_output_tokens_accumulate
            (stream_of (frames_text (frame_message_start :: sample_mid ++ [frame_message_stop])
                        ++ ""))
            frame_message_start sample_mid frame_message_stop "" None sample_message
            eq_refl eq_refl _ eq_refl eq_refl eq_refl eq_refl).
  discriminate.
Defined.

(** C2 as stated fails when the [message_start] frame brings a count of its
    own: with 5 output tokens at the start and one [message_delta] frame
    that carries 1, the message holds 6 after the last pull, and the sum of
    the increments is 1. *)
Lemma C2_counterexample :
  forallb mid_ok [frame_message_delta delta_line_1] = true
  /\ stop_ok frame_message_stop = true
  /\ sum_Z (increments [frame_message_delta delta_line_1]) = 1%Z
  /\ option_map output_tokens
       (ev_Message
          (event (run_ops (repeat OpRecv 3)
                    (stream_of
                       (frames_text [frame_message_start;
                                     frame_message_delta delta_line_1;
                                     frame_message_stop])))))
     = Some 6%Z
  /\ option_map output_tokens
       (ev_Message
          (event (run_ops (repeat OpRecv 3)
                    (stream_of
                       (frames_text [frame_message_start;
                                     frame_message_delta delta_line_1;
                                     frame_message_stop])))))
     <> Some (sum_Z (increments [frame_message_delta delta_line_1])).
Proof.
  repeat split; try (vm_compute; reflexivity).
  vm_compute. discriminate.
Qed.

(** ** The scenario of the specification, end to end *)

(** The five frames come back in their order, the message counts one
    output token from the [message_delta] frame on; the sixth pull, at the
    end of the stream, returns the event struct once more. *)
Lemma scenario_trace :
  map summary (Recv_trace 6 (stream_of scenario))
  = [(RecvEvent, StreamEventMessageStart, Some 0%Z, None);
     (RecvEvent, StreamEventContentBlockStart, Some 0%Z, Some "");
     (RecvEvent, StreamEventContentBlockDelta, Some 0%Z, Some "Ok");
     (RecvEvent, StreamEventMessageDelta, Some 1%Z, Some "Ok");
     (RecvEvent, StreamEventMessageStop, Some 1%Z, Some "Ok");
     (RecvEvent, StreamEventMessageStop, Some 1%Z, Some "Ok")].
Proof. vm_compute. reflexivity. Qed.

(** * Further properties of [Recv] *)

Section MoreLines.

Lemma split_line_no_LF (p : string) : no_LF p = true -> split_line p = None.
Proof.
  induction p as [|c p IH]; cbn [no_LF split_line]; intros H; [reflexivity|].
  apply andb_prop in H as [Hc Hp]. apply negb_true_iff in Hc.
  now rewrite Hc, (IH Hp).
Qed.

Lemma split_line_parts (s l rest : string) :
  split_line s = Some (l, rest) -> s = l ++ rest.
Proof.
  revert l. induction s as [|c s IH]; cbn [split_line]; intros l H; [discriminate|].
  destruct (Ascii.eqb c LF).
  - inversion H; subst. reflexivity.
  - destruct (split_line s) as [[l' r']|]; [|discriminate].
    inversion H; subst. cbn [append]. now rewrite <- (IH l' eq_refl).
Qed.

(** A line that starts with a visible byte and is clean comes out of
    [TrimSpace] without its line feed. *)
Lemma TrimSpace_whole_line (l : string) :
  head_visible l = true -> clean l = true -> TrimSpace (l ++ newline) = l.
Proof.
  intros Hh Hc. destruct l as [|h t]; [discriminate|]. cbn [head_visible] in Hh.
  unfold TrimSpace. cbn [append].
  rewrite (TrimLeft_head_visible h _ Hh).
  change (String h (t ++ newline)) with (String h t ++ newline).
  unfold TrimRight. rewrite rev_app.
  change (rev newline) with newline.
  change (newline ++ rev (String h t)) with (String LF (rev (String h t))).
  change (TrimLeft_rev (String LF (rev (String h t))))
    with (TrimLeft_rev (rev (String h t))).
  destruct (clean_rev _ Hc) as (c & r & Hr & Hv).
  rewrite Hr, (TrimLeft_rev_head_visible c _ Hv), <- Hr.
  apply rev_involutive.
Qed.

Lemma strip_prefix_sep_app (field tl : string) :
  strip_prefix ": " field = None ->
  strip_prefix ": " (field ++ ": " ++ tl)
  = match field with
    | EmptyString => Some tl
    | String _ _ => None
    end.
Proof.
  destruct field as [|c f]; [reflexivity|].
  cbn [strip_prefix append]. destruct (Ascii.eqb ":" c); [|reflexivity].
  destruct f as [|d f']; [reflexivity|].
  cbn [append]. destruct (Ascii.eqb " " d); [discriminate|reflexivity].
Qed.

Lemma cut_None_strip (sep s : string) : cut sep s = None -> strip_prefix sep s = None.
Proof.
  destruct s as [|c s]; cbn [cut]; destruct (strip_prefix sep _); congruence.
Qed.

Lemma cut_None_tail (sep : string) (c : ascii) (s : string) :
  cut sep (String c s) = None -> cut sep s = None.
Proof.
  cbn [cut]. destruct (strip_prefix sep (String c s)); [discriminate|].
  destruct (cut sep s) as [[b a]|]; [discriminate|reflexivity].
Qed.

Lemma cut_cons (sep : string) (c : ascii) (s : string) :
  cut sep (String c s)
  = match strip_prefix sep (String c s) with
    | Some rest => Some (EmptyString, rest)
    | None =>
        match cut sep s with
        | Some (before, after) => Some (String c before, after)
        | None => None
        end
    end.
Proof. reflexivity. Qed.

(** The first [": "] of a line is the one behind a field name that holds
    none. *)
Lemma cut_field (field v : string) :
  cut ": " field = None -> cut ": " (field ++ ": " ++ v) = Some (field, v).
Proof.
  induction field as [|c f IH]; intros H; [reflexivity|].
  pose proof (cut_None_strip _ _ H) as Hs.
  pose proof (strip_prefix_sep_app (String c f) v Hs) as Ha.
  change (String c f ++ ": " ++ v) with (String c (f ++ ": " ++ v)) in Ha |- *.
  rewrite cut_cons, Ha, (IH (cut_None_tail _ _ _ H)). reflexivity.
Qed.

End MoreLines.

Section MoreTurns.

Lemma head_visible_nonempty (l : string) : head_visible l = true -> String.eqb l "" = false.
Proof. destruct l; [discriminate|reflexivity]. Qed.

(** The turn of the loop that reads a line without separator. *)
Lemma loop_body_malformed_line (l rest : string) (fl : option string)
    (e : StreamEvent) (d : string) :
  malformed l = true ->
  loop_body (mkReader (l ++ newline ++ rest) fl) e d
  = Return (mkReader rest fl) (Errorf ("invalid SSE format: " ++ l)).
Proof.
  unfold malformed, has_separator. intros H.
  apply andb_prop in H as [H Hcut]. apply andb_prop in H as [Hh Hc].
  unfold loop_body.
  rewrite ReadString_line by now apply clean_no_LF.
  rewrite (TrimSpace_whole_line l Hh Hc), (head_visible_nonempty l Hh).
  unfold SplitN2. destruct (cut ": " l); [discriminate|reflexivity].
Qed.

(** The turn of the loop that reads a line of another field. *)
Lemma loop_body_other_field (field v rest : string) (fl : option string)
    (e : StreamEvent) (d : string) :
  other_field field = true -> clean v = true ->
  loop_body (mkReader (field ++ ": " ++ v ++ newline ++ rest) fl) e d
  = Continue (mkReader rest fl) e d.
Proof.
  unfold other_field, has_separator. intros H Hv.
  apply andb_prop in H as [H Hd]. apply andb_prop in H as [H He].
  apply andb_prop in H as [H Hcut]. apply andb_prop in H as [Hh Hn].
  apply negb_true_iff in Hd, He.
  destruct (cut ": " field) eqn:Hc; [discriminate|].
  destruct field as [|h t]; [discriminate|]. cbn [head_visible] in Hh.
  unfold loop_body.
  replace (String h t ++ ": " ++ v ++ newline ++ rest)
    with ((String h t ++ ": " ++ v) ++ newline ++ rest)
    by now rewrite !append_assoc.
  rewrite ReadString_line.
  2:{ rewrite !no_LF_app, Hn. cbn. now rewrite (clean_no_LF v Hv). }
  replace ((String h t ++ ": " ++ v) ++ newline)
    with (String h (t ++ ": ") ++ v ++ newline)
    by (cbn [append]; now rewrite !append_assoc).
  rewrite (TrimSpace_line h (t ++ ": ") v Hh Hv).
  replace (String h (t ++ ": ") ++ v) with (String h t ++ ": " ++ v)
    by (cbn [append]; now rewrite !append_assoc).
  unfold SplitN2. rewrite (cut_field (String h t) v Hc).
  cbv iota. now rewrite He, Hd.
Qed.

(** The turn of the loop that meets an error of the connection. *)
Lemma loop_body_failure (r : Reader) (msg : string) (e : StreamEvent) (d : string) :
  split_line (pending r) = None -> failure r = Some msg ->
  loop_body r e d = Return (mkReader "" (Some msg)) (ReadError msg).
Proof.
  intros Hs Hf. unfold loop_body, ReadString, end_error.
  rewrite Hs, Hf. reflexivity.
Qed.

(** The lines of a frame, up to its blank line, fill the name and the
    builder. *)
Lemma Recv_loop_frame_lines (f : Frame) (n : nat) (rest : string) (fl : option string)
    (e : StreamEvent) (d : string) :
  frame_ok f = true ->
  Recv_loop (S (length (f_lines f) + n)) (mkReader (frame_lines_text f ++ rest) fl) e d
  = Recv_loop n (mkReader rest fl) (f_event f) (d ++ frame_data f).
Proof.
  intros H. unfold frame_ok in H. apply andb_prop in H as [He Hl].
  unfold frame_lines_text. cbn [Recv_loop].
  rewrite !append_assoc.
  rewrite (loop_body_event_line (f_event f) _ fl e d He).
  apply (Recv_loop_data_lines _ n _ fl _ _ Hl).
Qed.

(** The outcome of the decoder does not depend on the reader. *)
Lemma decode_reader (s : MessageStream) (r : Reader) (e : StreamEvent) (d : string) :
  decode (with_reader s r) e d
  = (fst (decode s e d), with_reader (snd (decode s e d)) r).
Proof.
  unfold decode. cbn [event with_reader ignoreUnknownEvents].
  repeat match goal with
         | |- context [if ?b then _ else _] => destruct b
         | |- context [match ?x with _ => _ end] => destruct x
         end; reflexivity.
Qed.

End MoreTurns.

(** ** Lines that are not part of a well-formed frame *)

Lemma with_reader_same (s : MessageStream) : with_reader s (reader s) = s.
Proof. now destruct s. Qed.

(** Two readers whose loops run alike give the same pull. *)
Lemma Recv_eq_of_loop (s : MessageStream) (r1 r2 : Reader) (a b : nat) :
  (forall n, Recv_loop (a + n) r1 "" "" = Recv_loop (b + n) r2 "" "") ->
  Recv (with_reader s r1) = Recv (with_reader s r2).
Proof.
  intros H.
  destruct (Recv_loop_total (loop_fuel r2) r2 "" "") as [x Hx];
    [unfold loop_fuel; lia|].
  pose proof (Recv_loop_more_fuel _ (b + loop_fuel r2) _ _ _ _ Hx ltac:(lia)) as H2.
  pose proof H2 as H1. rewrite <- H in H1.
  rewrite (Recv_of_loop _ (with_reader s r1) x H1).
  rewrite (Recv_of_loop _ (with_reader s r2) x H2).
  destruct x; reflexivity.
Qed.

(** X1.  A line without the separator inside a frame: [Recv] returns the
    invalid-format error with the line, the name and the data buffered so
    far are given up, the event struct is not touched and the stream
    behind the line is left unread. *)
Theorem Recv_malformed_line (s : MessageStream) (f : Frame) (l rest : string)
    (fl : option string) :
  frame_ok f = true ->
  malformed l = true ->
  reader s = mkReader (frame_lines_text f ++ l ++ newline ++ rest) fl ->
  Recv s = Some (RecvError (Errorf ("invalid SSE format: " ++ l)),
                 with_reader s (mkReader rest fl)).
Proof.
  intros Hok Hl Hrd.
  apply (Recv_of_loop (S (length (f_lines f) + 1)) s
           (Returned (mkReader rest fl) (Errorf ("invalid SSE format: " ++ l)))).
  rewrite Hrd, (Recv_loop_frame_lines f 1 _ fl "" "" Hok).
  cbn [Recv_loop]. now rewrite (loop_body_malformed_line l rest fl _ _ Hl).
Qed.

Lemma Recv_malformed_line_witness :
  Recv (stream_of (frame_lines_text frame_message_start ++ "data:oops" ++ newline
                   ++ frame_text frame_message_stop))
  = Some (RecvError (Errorf "invalid SSE format: data:oops"),
          with_reader
            (stream_of (frame_lines_text frame_message_start ++ "data:oops" ++ newline
                        ++ frame_text frame_message_stop))
            (mkReader (frame_text frame_message_stop) None)).
Proof.
  exact (Recv_malformed_line
           (stream_of (frame_lines_text frame_message_start ++ "data:oops" ++ newline
                       ++ frame_text frame_message_stop))
           frame_message_start "data:oops" (frame_text frame_message_stop) None
           eq_refl eq_refl eq_refl).
Defined.

(** X2.  An error of the connection other than the end of the stream, met
    inside a frame: [Recv] returns that error; what the pull has buffered
    is given up and the event struct is not touched. *)
Theorem Recv_connection_error (s : MessageStream) (f : Frame) (p msg : string) :
  frame_ok f = true ->
  no_LF p = true ->
  reader s = mkReader (frame_lines_text f ++ p) (Some msg) ->
  Recv s = Some (RecvError (ReadError msg), with_reader s (mkReader "" (Some msg))).
Proof.
  intros Hok Hp Hrd.
  apply (Recv_of_loop (S (length (f_lines f) + 1)) s
           (Returned (mkReader "" (Some msg)) (ReadError msg))).
  rewrite Hrd, (Recv_loop_frame_lines f 1 _ (Some msg) "" "" Hok).
  cbn [Recv_loop].
  rewrite (loop_body_failure (mkReader p (Some msg)) msg); [reflexivity| |reflexivity].
  now apply split_line_no_LF.
Qed.

Lemma Recv_connection_error_witness :
  let s := with_reader (stream_of "")
             (mkReader (frame_lines_text frame_message_start ++ "data: {")
                (Some "connection reset by peer")) in
  Recv s = Some (RecvError (ReadError "connection reset by peer"),
                 with_reader s (mkReader "" (Some "connection reset by peer"))).
Proof.
  exact (Recv_connection_error
           (with_reader (stream_of "")
              (mkReader (frame_lines_text frame_message_start ++ "data: {")
                 (Some "connection reset by peer")))
           frame_message_start "data: {" "connection reset by peer"
           eq_refl eq_refl eq_refl).
Defined.

(** X3.  A frame that the end of the stream cuts off before its blank line
    is decoded like the frame with its blank line; the bytes of a last
    line without line feed are dropped. *)
Theorem Recv_unterminated_frame (s : MessageStream) (f : Frame) (p : string) :
  frame_ok f = true ->
  is_ping f = false ->
  no_LF p = true ->
  reader s = mkReader (frame_lines_text f ++ p) None ->
  Recv s = Recv (with_reader s (mkReader (frame_text f) None)).
Proof.
  intros Hok Hping Hp Hrd.
  rewrite <- (with_reader_same s) at 1. rewrite Hrd.
  apply (Recv_eq_of_loop s _ _ (S (length (f_lines f) + 1)) (S (length (f_lines f) + 1))).
  intros n.
  replace (S (length (f_lines f) + 1) + n) with (S (length (f_lines f) + S n)) by lia.
  rewrite (Recv_loop_frame_lines f (S n) p None "" "" Hok).
  rewrite <- (append_nil_r (frame_text f)).
  rewrite (Recv_loop_frame f n "" None "" "" Hok), Hping.
  cbn [Recv_loop].
  rewrite (loop_body_end_of_stream (mkReader p None)); [reflexivity| |reflexivity].
  now apply split_line_no_LF.
Qed.

Lemma Recv_unterminated_frame_witness :
  Recv (stream_of (frame_lines_text frame_message_start ++ "data: {"))
  = Recv (with_reader (stream_of (frame_lines_text frame_message_start ++ "data: {"))
            (mkReader (frame_text frame_message_start) None)).
Proof.
  exact (Recv_unterminated_frame
           (stream_of (frame_lines_text frame_message_start ++ "data: {"))
           frame_message_start "data: {" eq_refl eq_refl eq_refl eq_refl).
Defined.

(** X4.  A ping that carries data and that the end of the stream cuts off
    before its blank line is not dropped: its data reach the decoder, which
    knows no ping, and the caller gets an event of type [ping], or the
    unknown-event error once the tolerance is disabled. *)
Theorem Recv_ping_with_data_at_end (s : MessageStream) (f : Frame) (l : string)
    (ls : list string) (p : string) :
  frame_ok f = true ->
  is_ping f = true ->
  f_lines f = l :: ls ->
  no_LF p = true ->
  reader s = mkReader (frame_lines_text f ++ p) None ->
  Recv s
  = Some (if ignoreUnknownEvents s then RecvEvent
          else RecvError (Errorf "unknown event type: ping"),
          with_event (with_reader s (mkReader "" None))
            (set_Type (event s) StreamEventPing)).
Proof.
  intros Hok Hping Hl Hp Hrd.
  assert (He : f_event f = StreamEventPing) by now apply String.eqb_eq.
  assert (Hd : Nat.ltb 0 (String.length (frame_data f)) = true).
  { unfold frame_data. rewrite Hl. apply length_joined_pos. }
  rewrite (Recv_of_loop (S (length (f_lines f) + 1)) s
             (Broke (mkReader "" None) (f_event f) (frame_data f))).
  - rewrite He. unfold decode. rewrite Hd.
    cbn [ignoreUnknownEvents with_reader event].
    now destruct (ignoreUnknownEvents s).
  - rewrite Hrd, (Recv_loop_frame_lines f 1 p None "" "" Hok).
    cbn [Recv_loop].
    rewrite (loop_body_end_of_stream (mkReader p None)); [reflexivity| |reflexivity].
    now apply split_line_no_LF.
Qed.

Lemma Recv_ping_with_data_at_end_witness :
  Recv (ErrorUnknownEvent (stream_of (frame_lines_text frame_ping ++ "")))
  = Some (RecvError (Errorf "unknown event type: ping"),
          with_event
            (with_reader (ErrorUnknownEvent (stream_of (frame_lines_text frame_ping ++ "")))
               (mkReader "" None))
            (set_Type zero_MessageStreamEvent StreamEventPing)).
Proof.
  exact (Recv_ping_with_data_at_end
           (ErrorUnknownEvent (stream_of (frame_lines_text frame_ping ++ "")))
           frame_ping _ [] "" eq_refl eq_refl eq_refl eq_refl eq_refl).
Defined.

(** X5.  A line of a field other than [event] and [data] between the lines
    of a frame is read over: the pull gives what it gives without the
    line. *)
Theorem Recv_skips_other_fields (s : MessageStream) (f : Frame) (field v rest : string)
    (fl : option string) :
  frame_ok f = true ->
  other_field field = true ->
  clean v = true ->
  reader s
  = mkReader ("event: " ++ f_event f ++ newline
              ++ field ++ ": " ++ v ++ newline
              ++ data_lines (f_lines f) ++ newline ++ rest) fl ->
  Recv s = Recv (with_reader s (mkReader (frame_text f ++ rest) fl)).
Proof.
  intros Hok Hf Hv Hrd.
  assert (Hok' := Hok). unfold frame_ok in Hok'. apply andb_prop in Hok' as [He _].
  rewrite <- (with_reader_same s) at 1. rewrite Hrd.
  apply (Recv_eq_of_loop s _ _ 2 1). intros n.
  cbn [Nat.add Recv_loop].
  rewrite (loop_body_event_line (f_event f) _ fl "" "" He).
  rewrite (loop_body_other_field field v _ fl _ _ Hf Hv).
  unfold frame_text. rewrite !append_assoc.
  rewrite (loop_body_event_line (f_event f) _ fl "" "" He).
  destruct n; reflexivity.
Qed.

Lemma Recv_skips_other_fields_witness :
  Recv (stream_of ("event: " ++ f_event frame_message_stop ++ newline
                   ++ "id" ++ ": " ++ "42" ++ newline
                   ++ data_lines (f_lines frame_message_stop) ++ newline ++ ""))
  = Recv (with_reader
            (stream_of ("event: " ++ f_event frame_message_stop ++ newline
                        ++ "id" ++ ": " ++ "42" ++ newline
                        ++ data_lines (f_lines frame_message_stop) ++ newline ++ ""))
            (mkReader (frame_text frame_message_stop ++ "") None)).
Proof.
  exact (Recv_skips_other_fields
           (stream_of ("event: " ++ f_event frame_message_stop ++ newline
                       ++ "id" ++ ": " ++ "42" ++ newline
                       ++ data_lines (f_lines frame_message_stop) ++ newline ++ ""))
           frame_message_stop "id" "42" "" None eq_refl eq_refl eq_refl eq_refl).
Defined.

(** X6.  A frame without data lines, of any kind but ping, ends the pull
    without reaching the decoder: [Recv] returns the event struct as it
    was, also for an [error] frame and for an unknown kind with the
    tolerance disabled. *)
Theorem Recv_frame_without_data (s : MessageStream) (f : Frame) (rest : string)
    (fl : option string) :
  frame_ok f = true ->
  is_ping f = false ->
  f_lines f = [] ->
  reader s = mkReader (frame_text f ++ rest) fl ->
  Recv s = Some (RecvEvent, with_reader s (mkReader rest fl)).
Proof.
  intros Hok Hping Hl Hrd.
  rewrite (Recv_frame s [] f rest fl Hrd eq_refl eq_refl Hok Hping).
  unfold frame_data. rewrite Hl. reflexivity.
Qed.

Lemma Recv_frame_without_data_witness :
  Recv (ErrorUnknownEvent (stream_of (frame_text (mkFrame StreamEventError []) ++ "")))
  = Some (RecvEvent,
          with_reader
            (ErrorUnknownEvent (stream_of (frame_text (mkFrame StreamEventError []) ++ "")))
            (mkReader "" None)).
Proof.
  exact (Recv_frame_without_data
           (ErrorUnknownEvent (stream_of (frame_text (mkFrame StreamEventError []) ++ "")))
           (mkFrame StreamEventError []) "" None eq_refl eq_refl eq_refl eq_refl).
Defined.

(** ** More of the decoder *)

Lemma one_of_cases (e : StreamEvent) (kinds : list StreamEvent) :
  one_of e kinds = true -> In e kinds.
Proof.
  unfold one_of. intros H. apply existsb_exists in H as (k & Hin & Hk).
  apply String.eqb_eq in Hk. now subst.
Qed.

(** X7.  A [content_block_start] or [content_block_stop] frame whose data
    decode: the event comes back with a content block decoded from the
    payload alone (nothing of the block of an earlier event stays in it),
    and with its message, delta and index as they were. *)
Theorem Recv_content_block_start_stop (s : MessageStream) (f : Frame) (l : string)
    (ls : list string) (rest : string) (fl : option string) (b : ContentBlock) :
  frame_ok f = true ->
  one_of (f_event f) [StreamEventContentBlockStart; StreamEventContentBlockStop] = true ->
  f_lines f = l :: ls ->
  Unmarshal store_ContentBlock (frame_data f) zero_ContentBlock = (b, None) ->
  reader s = mkReader (frame_text f ++ rest) fl ->
  Recv s
  = Some (RecvEvent,
          with_event (with_reader s (mkReader rest fl))
            (set_ContentBlock_field (set_Type (event s) (f_event f)) (Some b))).
Proof.
  intros Hok He Hl Hu Hrd.
  assert (Hd : Nat.ltb 0 (String.length (frame_data f)) = true).
  { unfold frame_data. rewrite Hl. apply length_joined_pos. }
  assert (Hp : is_ping f = false).
  { unfold is_ping. apply one_of_cases in He.
    destruct He as [<-|[<-|[]]]; reflexivity. }
  rewrite (Recv_frame s [] f rest fl Hrd eq_refl eq_refl Hok Hp).
  unfold decode. rewrite Hd, Hu.
  apply one_of_cases in He.
  destruct He as [He|[He|[]]]; rewrite <- He; reflexivity.
Qed.

Lemma Recv_content_block_start_stop_witness :
  let f := mkFrame StreamEventContentBlockStart [quoted "{'type':'text'}"] in
  let s := with_event (stream_of (frame_text f ++ ""))
             (set_ContentBlock_field zero_MessageStreamEvent
                (Some (mkContentBlock "text_delta" "Ok"))) in
  Recv s
  = Some (RecvEvent,
          with_event (with_reader s (mkReader "" None))
            (set_ContentBlock_field (set_Type (event s) StreamEventContentBlockStart)
               (Some (mkContentBlock "text" "")))).
Proof.
  exact (Recv_content_block_start_stop
           (with_event
              (stream_of (frame_text
                            (mkFrame StreamEventContentBlockStart [quoted "{'type':'text'}"])
                          ++ ""))
              (set_ContentBlock_field zero_MessageStreamEvent
                 (Some (mkContentBlock "text_delta" "Ok"))))
           (mkFrame StreamEventContentBlockStart [quoted "{'type':'text'}"])
           _ [] "" None (mkContentBlock "text" "")
           eq_refl eq_refl eq_refl eq_refl eq_refl).
Defined.

(** X8.  A frame of one of the six kinds that are decoded, whose data are
    not a JSON value: [Recv] returns the syntax error of [json.Unmarshal]
    and no event; in the event struct only the type has changed, to the
    kind of the frame. *)
Theorem Recv_invalid_JSON (s : MessageStream) (f : Frame) (l : string)
    (ls : list string) (rest : string) (fl : option string) :
  frame_ok f = true ->
  decoding_kind (f_event f) = true ->
  f_lines f = l :: ls ->
  parse (frame_data f) = None ->
  reader s = mkReader (frame_text f ++ rest) fl ->
  Recv s
  = Some (RecvError (JSONError SyntaxError),
          with_event (with_reader s (mkReader rest fl))
            (set_Type (event s) (f_event f))).
Proof.
  intros Hok Hk Hl Hparse Hrd.
  assert (Hd : Nat.ltb 0 (String.length (frame_data f)) = true).
  { unfold frame_data. rewrite Hl. apply length_joined_pos. }
  apply one_of_cases in Hk.
  assert (Hp : is_ping f = false).
  { unfold is_ping. destruct Hk as [<-|[<-|[<-|[<-|[<-|[<-|[]]]]]]]; reflexivity. }
  rewrite (Recv_frame s [] f rest fl Hrd eq_refl eq_refl Hok Hp).
  unfold decode. rewrite Hd.
  destruct Hk as [Hk|[Hk|[Hk|[Hk|[Hk|[Hk|[]]]]]]]; rewrite <- Hk;
    unfold Unmarshal; rewrite Hparse; reflexivity.
Qed.

Lemma Recv_invalid_JSON_witness :
  let f := mkFrame StreamEventMessageStart [quoted "{'type':'message_start',"] in
  Recv (stream_of (frame_text f ++ ""))
  = Some (RecvError (JSONError SyntaxError),
          with_event (with_reader (stream_of (frame_text f ++ "")) (mkReader "" None))
            (set_Type zero_MessageStreamEvent StreamEventMessageStart)).
Proof.
  exact (Recv_invalid_JSON
           (stream_of (frame_text
                         (mkFrame StreamEventMessageStart [quoted "{'type':'message_start',"])
                       ++ ""))
           (mkFrame StreamEventMessageStart [quoted "{'type':'message_start',"])
           _ [] "" None eq_refl eq_refl eq_refl eq_refl eq_refl).
Defined.

(** X9.  A [message_delta] frame pulled while the event struct holds no
    message: the decoded delta is set on the event and [Recv] returns it,
    with or without usage in the payload; the usage is not read and no
    message appears. *)
Theorem Recv_message_delta_without_message (s : MessageStream) (f : Frame) (l : string)
    (ls : list string) (rest : string) (fl : option string) (w : MessageDeltaWrapper) :
  frame_ok f = true ->
  f_event f = StreamEventMessageDelta ->
  f_lines f = l :: ls ->
  Unmarshal store_MessageDeltaWrapper (frame_data f) zero_MessageDeltaWrapper = (w, None) ->
  ev_Message (event s) = None ->
  reader s = mkReader (frame_text f ++ rest) fl ->
  Recv s
  = Some (RecvEvent,
          with_event (with_reader s (mkReader rest fl))
            (set_Delta (set_Type (event s) StreamEventMessageDelta)
               (Some (mdw_Delta w)))).
Proof.
  intros Hok He Hl Hu Hm Hrd.
  assert (Hd : Nat.ltb 0 (String.length (frame_data f)) = true).
  { unfold frame_data. rewrite Hl. apply length_joined_pos. }
  assert (Hp : is_ping f = false) by (unfold is_ping; now rewrite He).
  rewrite (Recv_frame s [] f rest fl Hrd eq_refl eq_refl Hok Hp).
  rewrite He, (decode_message_delta _ _ Hd), Hu.
  cbv zeta. cbn [ev_Message set_Delta set_Type event with_reader].
  now rewrite Hm.
Qed.

Lemma Recv_message_delta_without_message_witness :
  Recv (stream_of (frame_text frame_message_delta_no_usage ++ ""))
  = Some (RecvEvent,
          with_event
            (with_reader (stream_of (frame_text frame_message_delta_no_usage ++ ""))
               (mkReader "" None))
            (set_Delta (set_Type zero_MessageStreamEvent StreamEventMessageDelta)
               (Some (mkMessageDelta "end_turn" None)))).
Proof.
  exact (Recv_message_delta_without_message
           (stream_of (frame_text frame_message_delta_no_usage ++ ""))
           frame_message_delta_no_usage _ [] "" None
           (mkMessageDeltaWrapper "message_delta" (mkMessageDelta "end_turn" None) None)
           eq_refl eq_refl eq_refl eq_refl eq_refl eq_refl).
Defined.

(** ** What a pull does to the handle *)

Lemma loop_body_consumes (r : Reader) (e : StreamEvent) (d : string) :
  let r' := match loop_body r e d with
            | Continue r' _ _ => r'
            | Break r' _ _ => r'
            | Return r' _ => r'
            end in
  (exists c, pending r = c ++ pending r') /\ failure r' = failure r.
Proof.
  unfold loop_body, ReadString.
  destruct (split_line (pending r)) as [[l rest]|] eqn:Hs.
  - apply split_line_parts in Hs.
    assert (H : (exists c, pending r = c ++ rest) /\ failure r = failure r)
      by (split; [now exists l | reflexivity]).
    destruct (String.eqb (TrimSpace l) "").
    + destruct (String.eqb e StreamEventPing); exact H.
    + destruct (SplitN2 (TrimSpace l) ": ") as [|fd [|v [|x tl]]]; try exact H.
      destruct (String.eqb fd "event"); [exact H|].
      destruct (String.eqb fd "data"); exact H.
  - assert (H : (exists c, pending r = c ++ "") /\ failure r = failure r)
      by (split; [exists (pending r); now rewrite append_nil_r | reflexivity]).
    destruct (is_EOF (end_error r)); exact H.
Qed.

Lemma Recv_loop_consumes (f : nat) (r : Reader) (e : StreamEvent) (d : string)
    (x : LoopExit) :
  Recv_loop f r e d = Some x ->
  let r' := match x with
            | Broke r' _ _ => r'
            | Returned r' _ => r'
            end in
  (exists c, pending r = c ++ pending r') /\ failure r' = failure r.
Proof.
  revert r e d. induction f as [|f IH]; intros r e d H; [discriminate|].
  cbn [Recv_loop] in H.
  pose proof (loop_body_consumes r e d) as Hb.
  destruct (loop_body r e d) as [r1 e1 d1|r1 e1 d1|r1 err].
  - destruct (IH _ _ _ H) as [[c2 H2] Hf2]. destruct Hb as [[c1 H1] Hf1].
    split; [|congruence].
    exists (c1 ++ c2). now rewrite append_assoc, <- H2.
  - inversion H; subst. exact Hb.
  - inversion H; subst. exact Hb.
Qed.

(** The only panic of the decoder is the one of the [message_delta] branch,
    on a handle whose event struct holds a message. *)
Lemma decode_panic (s s' : MessageStream) (e : StreamEvent) (d : string) :
  decode s e d = (RecvPanic, s') ->
  ev_Message (event s) <> None
  /\ e = StreamEventMessageDelta
  /\ ev_Type (event s') = StreamEventMessageDelta.
Proof.
  unfold decode.
  destruct (Nat.ltb 0 (String.length d)); [|discriminate]. cbv zeta.
  destruct (one_of e [StreamEventMessageStart; StreamEventMessageStop]).
  { destruct (Unmarshal store_MessageStreamEvent d (set_Type (event s) e))
      as [e1 [err|]]; discriminate. }
  destruct (one_of e [StreamEventMessageDelta]) eqn:Hk.
  { assert (He : e = StreamEventMessageDelta).
    { unfold one_of in Hk. cbn [existsb] in Hk. rewrite orb_false_r in Hk.
      now apply String.eqb_eq. }
    destruct (Unmarshal store_MessageDeltaWrapper d zero_MessageDeltaWrapper)
      as [w [err|]]; [discriminate|].
    cbn [ev_Message set_Delta set_Type].
    destruct (ev_Message (event s)) as [m|]; [|discriminate].
    destruct (mdw_Usage w); [discriminate|].
    intros H. inversion H; subst s'.
    split; [discriminate|]. split; [exact He|]. now rewrite He. }
  repeat match goal with
         | |- (if ?b then _ else _) = _ -> _ => destruct b
         | |- (match ?x with _ => _ end) = _ -> _ => destruct x
         end; discriminate.
Qed.

Lemma Recv_panic (s s' : MessageStream) :
  Recv s = Some (RecvPanic, s') ->
  ev_Message (event s) <> None /\ ev_Type (event s') = StreamEventMessageDelta.
Proof.
  unfold Recv.
  destruct (Recv_loop (loop_fuel (reader s)) (reader s) "" "") as [[r e d|r err]|];
    intros H; inversion H as [Hd].
  destruct (decode_panic _ _ _ _ Hd) as (Hm & _ & Ht). now split.
Qed.

(** X10.  Every call of [Recv] ends: it returns, or it panics, and it can
    panic only on a handle whose event struct holds a message, leaving
    the type [message_delta] in the struct.  All that the call does to the
    byte stream is to consume a prefix of it: what is left unread is a
    suffix of what was there, and the way the stream ends is as before. *)
Theorem Recv_only_consumes (s : MessageStream) :
  exists res s',
    Recv s = Some (res, s')
    /\ (exists consumed, pending (reader s) = consumed ++ pending (reader s'))
    /\ failure (reader s') = failure (reader s)
    /\ (res = RecvPanic ->
        ev_Message (event s) <> None
        /\ ev_Type (event s') = StreamEventMessageDelta).
Proof.
  destruct (Recv_loop_total (loop_fuel (reader s)) (reader s) "" "") as [x Hx];
    [unfold loop_fuel; lia|].
  pose proof (Recv_loop_consumes _ _ _ _ _ Hx) as Hc.
  pose proof (Recv_of_loop _ s x Hx) as Hr.
  destruct x as [r e d|r err].
  - pose proof (decode_keeps_flag (with_reader s r) e d) as (Hk1 & Hk2 & Hk3).
    destruct (decode (with_reader s r) e d) as [res s'] eqn:Hd.
    cbn [snd reader with_reader resp ignoreUnknownEvents] in *.
    exists res, s'. rewrite Hk3.
    split; [assumption|]. split; [apply Hc|]. split; [apply Hc|].
    intros ->. exact (Recv_panic s s' Hr).
  - exists (RecvError err), (with_reader s r).
    split; [assumption|]. split; [apply Hc|]. split; [apply Hc|].
    discriminate.
Qed.

(** A pull on the [message_start] frame returns and leaves the stream
    behind the frame; the pull on a [message_delta] frame without usage,
    on the handle that holds the message, is the one that panics. *)
Lemma Recv_only_consumes_witness :
  (exists res s',
     Recv (stream_of (frame_text frame_message_start ++ "tail")) = Some (res, s')
     /\ (exists consumed,
           pending (reader (stream_of (frame_text frame_message_start ++ "tail")))
           = consumed ++ pending (reader s'))
     /\ failure (reader s')
        = failure (reader (stream_of (frame_text frame_message_start ++ "tail")))
     /\ (res = RecvPanic ->
         ev_Message (event (stream_of (frame_text frame_message_start ++ "tail"))) <> None
         /\ ev_Type (event s') = StreamEventMessageDelta))
  /\ (exists res s',
        Recv (with_event (stream_of (frame_text frame_message_delta_no_usage))
                (set_Message_field zero_MessageStreamEvent (Some sample_message)))
        = Some (res, s')
        /\ (exists consumed,
              pending (reader
                         (with_event (stream_of (frame_text frame_message_delta_no_usage))
                            (set_Message_field zero_MessageStreamEvent
                               (Some sample_message))))
              = consumed ++ pending (reader s'))
        /\ failure (reader s')
           = failure (reader
                        (with_event (stream_of (frame_text frame_message_delta_no_usage))
                           (set_Message_field zero_MessageStreamEvent
                              (Some sample_message))))
        /\ (res = RecvPanic ->
            ev_Message
              (event (with_event (stream_of (frame_text frame_message_delta_no_usage))
                        (set_Message_field zero_MessageStreamEvent (Some sample_message))))
            <> None
            /\ ev_Type (event s') = StreamEventMessageDelta)).
Proof.
  split.
  - exact (Recv_only_consumes (stream_of (frame_text frame_message_start ++ "tail"))).
  - exact (Recv_only_consumes
             (with_event (stream_of (frame_text frame_message_delta_no_usage))
                (set_Message_field zero_MessageStreamEvent (Some sample_message)))).
Defined.

(** * Properties of the client *)

Section Headers.

Lemma lookup_filter_other (h : Header) (k k' : string) :
  String.eqb k k' = false ->
  lookup (filter (fun kv => negb (String.eqb (fst kv) k)) h) k' = lookup h k'.
Proof.
  intros Hne. induction h as [|[k0 vs] h IH]; [reflexivity|].
  cbn [filter fst lookup].
  destruct (String.eqb k0 k) eqn:H0; cbn [negb].
  - apply String.eqb_eq in H0. subst k0. now rewrite Hne.
  - cbn [lookup]. now rewrite IH.
Qed.

(** A value that was set is the only value under its key. *)
Lemma Header_Values_Set_same (h : Header) (key value : string) :
  Header_Values (Header_Set h key value) key = Some [value].
Proof.
  unfold Header_Values, Header_Set. cbn [lookup].
  now rewrite String.eqb_refl.
Qed.

(** Setting a key leaves the other keys as they are. *)
Lemma Header_Values_Set_other (h : Header) (key key' value : string) :
  CanonicalMIMEHeaderKey key <> CanonicalMIMEHeaderKey key' ->
  Header_Values (Header_Set h key value) key' = Header_Values h key'.
Proof.
  intros Hne. unfold Header_Values, Header_Set. cbn [lookup].
  apply String.eqb_neq in Hne. rewrite Hne.
  now apply lookup_filter_other.
Qed.

End Headers.

Section ClientFacts.

Context {HTTPClient : Type} (DefaultClient : HTTPClient)
        (NewRequest_error : string -> string -> option error).

Lemma newRequest_ok (c : Client HTTPClient) (method path : string)
    (body : option Encoded) (req : Request) :
  newRequest NewRequest_error c method path body = RequestOk req ->
  req_Method req = method
  /\ req_URL req = baseURL c ++ path
  /\ req_Header req
     = (let h := Header_Set [] "Content-Type" defaultContentType in
        let h := Header_Set h "Accept" defaultAccept in
        let h := Header_Set h "User-Agent" (userAgent c) in
        let h := Header_Set h "anthropic-version" (apiVersion c) in
        let h :=
          if negb (String.eqb (betaVersion c) "")
          then Header_Set h "anthropic-beta" (apiVersion c) else h in
        if negb (String.eqb (apiKey c) "")
        then Header_Set h "X-API-Key" (apiKey c)
        else if negb (String.eqb (authToken c) "")
             then Header_Set h "Authorization" ("Bearer " ++ authToken c)
             else h).
Proof.
  unfold newRequest. intros H.
  destruct body as [[|bytes]|]; try discriminate;
    destruct (NewRequest_error method (baseURL c ++ path)); try discriminate;
    inversion H; subst; repeat split; reflexivity.
Qed.

(** X11.  The credentials of a request: the API key, when the client has
    one, goes out as the only value of [X-Api-Key] and no [Authorization]
    header is sent; without API key the auth token, when there is one, goes
    out as [Bearer] token; a request never carries both, and carries
    neither when the client has neither. *)
Theorem newRequest_credentials (c : Client HTTPClient) (method path : string)
    (body : option Encoded) (req : Request) :
  newRequest NewRequest_error c method path body = RequestOk req ->
  Header_Values (req_Header req) "X-API-Key"
  = (if String.eqb (apiKey c) "" then None else Some [apiKey c])
  /\ Header_Values (req_Header req) "Authorization"
     = (if String.eqb (apiKey c) "" && negb (String.eqb (authToken c) "")
        then Some ["Bearer " ++ authToken c] else None).
Proof.
  intros H. apply newRequest_ok in H as (_ & _ & Hh). rewrite Hh.
  destruct (String.eqb (betaVersion c) ""), (String.eqb (apiKey c) ""),
    (String.eqb (authToken c) ""); split; reflexivity.
Qed.

(** X12.  The version headers of a request: [Anthropic-Version] carries the
    API version of the client; [Anthropic-Beta] is sent exactly when the
    client has a beta version, and what it carries is the API version, not
    the beta version. *)
Theorem newRequest_versions (c : Client HTTPClient) (method path : string)
    (body : option Encoded) (req : Request) :
  newRequest NewRequest_error c method path body = RequestOk req ->
  Header_Values (req_Header req) "anthropic-version" = Some [apiVersion c]
  /\ Header_Values (req_Header req) "anthropic-beta"
     = (if String.eqb (betaVersion c) "" then None else Some [apiVersion c]).
Proof.
  intros H. apply newRequest_ok in H as (_ & _ & Hh). rewrite Hh.
  destruct (String.eqb (betaVersion c) ""), (String.eqb (apiKey c) ""),
    (String.eqb (authToken c) ""); split; reflexivity.
Qed.

(** X13.  The request of [StreamMessage] is the request that
    [CreateMessage] builds for the same parameters with [Stream] set, with
    one header changed: [Accept] carries the stream media type of the
    client instead of [application/json].  Its body is the encoding of
    the parameters with [Stream] set, whatever [Stream] was; method,
    address and every other header are the same. *)
Theorem StreamMessage_request_Accept (float64 : Type)
    (jsonBody : MessageCreateParams float64 -> Encoded)
    (c : Client HTTPClient) (params : MessageCreateParams float64) (req : Request) :
  StreamMessage_request NewRequest_error jsonBody c params = RequestOk req ->
  exists req0 bytes,
    CreateMessage_request NewRequest_error jsonBody c (with_Stream params) = RequestOk req0
    /\ Stream (with_Stream params) = true
    /\ jsonBody (with_Stream params) = Encodes bytes
    /\ req_Body req = Some bytes
    /\ req_Body req0 = Some bytes
    /\ Header_Values (req_Header req0) "Accept" = Some [defaultAccept]
    /\ Header_Values (req_Header req) "Accept" = Some [streamAccept c]
    /\ (forall key, CanonicalMIMEHeaderKey key <> CanonicalMIMEHeaderKey "Accept" ->
                    Header_Values (req_Header req) key = Header_Values (req_Header req0) key)
    /\ req_Method req = MethodPost
    /\ req_URL req = baseURL c ++ "/v1/messages".
Proof.
  unfold StreamMessage_request, CreateMessage_request. intros H.
  destruct (newRequest NewRequest_error c MethodPost "/v1/messages"
              (Some (jsonBody (with_Stream params)))) as [| |req0] eqn:Hn;
    try discriminate.
  inversion H; subst. clear H.
  pose proof (newRequest_ok _ _ _ _ _ Hn) as (Hm & Hu & Hh).
  assert (Hb : exists bytes, jsonBody (with_Stream params) = Encodes bytes
                             /\ req_Body req0 = Some bytes).
  { unfold newRequest in Hn.
    destruct (jsonBody (with_Stream params)) as [|bytes]; [discriminate|].
    destruct (NewRequest_error MethodPost (baseURL c ++ "/v1/messages"));
      [discriminate|].
    inversion Hn; subst. exists bytes. split; reflexivity. }
  destruct Hb as (bytes & Hj & Hbody).
  exists req0, bytes.
  cbn [req_Header req_Method req_URL req_Body].
  split; [reflexivity|]. split; [reflexivity|]. split; [exact Hj|].
  split; [exact Hbody|]. split; [exact Hbody|]. split.
  { rewrite Hh.
    destruct (String.eqb (betaVersion c) ""), (String.eqb (apiKey c) ""),
      (String.eqb (authToken c) ""); reflexivity. }
  split; [apply Header_Values_Set_same|]. split.
  { intros key Hk. apply Header_Values_Set_other. congruence. }
  split; [exact Hm|exact Hu].
Qed.

Lemma fold_options_app (opts : list (ClientOption HTTPClient)) (o : ClientOption HTTPClient)
    (c : Client HTTPClient) :
  fold_left (fun c (opt : ClientOption HTTPClient) => opt c) (opts ++ [o])%list c
  = o (fold_left (fun c (opt : ClientOption HTTPClient) => opt c) opts c).
Proof. now rewrite fold_left_app. Qed.

(** X14.  The API key of a new client: the key of a [WithAPIKey] option
    that comes last wins over the options before it and over the
    environment; an empty key falls back to [ANTHROPIC_API_KEY].  Without
    options both credentials are read from the environment. *)
Theorem NewClient_api_key (getenv : string -> string)
    (opts : list (ClientOption HTTPClient)) (k : string) :
  apiKey (NewClient DefaultClient getenv (opts ++ [WithAPIKey k])%list)
  = (if String.eqb k "" then getenv "ANTHROPIC_API_KEY" else k)
  /\ apiKey (NewClient DefaultClient getenv []) = getenv "ANTHROPIC_API_KEY"
  /\ authToken (NewClient DefaultClient getenv []) = getenv "ANTHROPIC_AUTH_TOKEN".
Proof.
  split; [|split].
  - unfold NewClient. rewrite fold_options_app.
    set (c0 := fold_left _ opts _).
    cbn [WithAPIKey apiKey].
    destruct (String.eqb k "") eqn:Hk.
    + cbn [WithAPIKey apiKey authToken].
      destruct (String.eqb (authToken c0) ""); reflexivity.
    + cbn [WithAPIKey apiKey authToken].
      destruct (String.eqb (authToken c0) ""); reflexivity.
  - unfold NewClient. cbn. now destruct (String.eqb (getenv "ANTHROPIC_AUTH_TOKEN") "").
  - unfold NewClient. cbn. reflexivity.
Qed.

End ClientFacts.

Lemma newRequest_credentials_witness :
  exists req,
    newRequest (fun _ _ => None)
      (NewClient tt (fun _ => "") [WithAuthToken "token-1"; WithAPIKey "key-1"])
      MethodPost "/v1/messages" None = RequestOk req
    /\ Header_Values (req_Header req) "X-API-Key" = Some ["key-1"]
    /\ Header_Values (req_Header req) "Authorization" = None.
Proof.
  eexists. split; [reflexivity|].
  exact (newRequest_credentials (fun _ _ => None)
           (NewClient tt (fun _ => "") [WithAuthToken "token-1"; WithAPIKey "key-1"])
           MethodPost "/v1/messages" None _ eq_refl).
Defined.

Lemma newRequest_versions_witness :
  exists req,
    newRequest (fun _ _ => None)
      (NewClient tt (fun _ => "") [WithBetaVersion "tools-1"])
      MethodPost "/v1/messages" None = RequestOk req
    /\ Header_Values (req_Header req) "anthropic-version" = Some [defaultAPIVersion]
    /\ Header_Values (req_Header req) "anthropic-beta" = Some [defaultAPIVersion].
Proof.
  eexists. split; [reflexivity|].
  exact (newRequest_versions (fun _ _ => None)
           (NewClient tt (fun _ => "") [WithBetaVersion "tools-1"])
           MethodPost "/v1/messages" None _ eq_refl).
Defined.

Lemma StreamMessage_request_Accept_witness :
  let encode := fun p : MessageCreateParams unit =>
                  Encodes (if Stream p then "{stream: true}" else "{}") in
  let params := mkMessageCreateParams unit 16 [] "claude-3-sonnet-20240229" [] []
                  false "" tt 0 tt in
  exists req req0 bytes,
    StreamMessage_request (fun _ _ => None) encode (NewClient tt (fun _ => "") []) params
    = RequestOk req
    /\ CreateMessage_request (fun _ _ => None) encode (NewClient tt (fun _ => "") [])
         (with_Stream params) = RequestOk req0
    /\ req_Body req = Some "{stream: true}"
    /\ bytes = "{stream: true}"
    /\ Header_Values (req_Header req0) "Accept" = Some ["application/json"]
    /\ Header_Values (req_Header req) "Accept" = Some ["text/event-stream"].
Proof.
  intros encode params.
  destruct (StreamMessage_request_Accept (fun _ _ => None) unit encode
              (NewClient tt (fun _ => "") []) params _ eq_refl)
    as (req0 & bytes & H0 & _ & Hj & Hb & _ & H1 & H2 & _).
  eexists. exists req0, bytes. split; [reflexivity|].
  split; [exact H0|]. split; [reflexivity|]. split.
  - subst encode params. cbn in Hj. now inversion Hj.
  - split; assumption.
Defined.

(** * Properties of [CreateMessage] and [StreamMessage] *)

Lemma parse_value_blank (f : nat) (d : N) (s : string) :
  skip_ws s = "" -> parse_value f d s = None.
Proof. intros H. destruct f; cbn [parse_value]; [reflexivity|]. now rewrite H. Qed.

Lemma skip_ws_blank_head (c : ascii) (r : string) :
  skip_ws (String c r) = "" -> is_ws c = true.
Proof. cbn [skip_ws]. destruct (is_ws c); [reflexivity|discriminate]. Qed.

(** X15.  A response with a status of 400 or more: [CreateMessage] returns
    no message but an error whose text holds the status and the whole body
    of the response, and the body is closed. *)
Theorem CreateMessage_error_status (r : Response) :
  (StatusBadRequest <= StatusCode r)%Z ->
  CreateMessage (Responds r)
  = (inl (Failed (Errorf ("anthropic: " ++ Status r ++ " - " ++ pending (Body r)))),
     Some (close_body r)).
Proof.
  intros H. unfold CreateMessage, do.
  destruct (Z.geb (StatusCode r) StatusBadRequest) eqn:Hg; [reflexivity|].
  rewrite Z.geb_leb in Hg. apply Z.leb_gt in Hg. lia.
Qed.

Lemma CreateMessage_error_status_witness :
  CreateMessage
    (Responds (mkResponse 401 "401 Unauthorized" (mkReader "{}" None) false))
  = (inl (Failed (Errorf "anthropic: 401 Unauthorized - {}")),
     Some (mkResponse 401 "401 Unauthorized" (mkReader "{}" None) true)).
Proof.
  apply (CreateMessage_error_status
           (mkResponse 401 "401 Unauthorized" (mkReader "{}" None) false)).
  unfold StatusBadRequest. cbn. lia.
Defined.

(** X16.  A response with a status below 400 whose body is one JSON value
    and then ends: [CreateMessage] returns the message that
    [json.Unmarshal] of the body into an empty message gives, or the type
    error where the value does not fit; the body is closed either way. *)
Theorem CreateMessage_decodes_body (r : Response) (j : json) :
  (StatusCode r < StatusBadRequest)%Z ->
  failure (Body r) = None ->
  parse (pending (Body r)) = Some j ->
  CreateMessage (Responds r)
  = (match Unmarshal store_Message (pending (Body r)) zero_Message with
     | (m, None) => inr m
     | (_, Some _) => inl (BodyFailed TypeMismatch)
     end, Some (close_body r)).
Proof.
  intros Hs Hf Hp. unfold CreateMessage, do.
  destruct (Z.geb (StatusCode r) StatusBadRequest) eqn:Hg;
    [rewrite Z.geb_leb in Hg; apply Z.leb_le in Hg; lia|].
  unfold Unmarshal. rewrite Hp.
  unfold Decode. unfold parse in Hp.
  destruct (skip_ws (pending (Body r))) as [|c0 r0] eqn:Hblank.
  { rewrite (parse_value_blank _ _ _ Hblank) in Hp. discriminate. }
  destruct (parse_value (2 * String.length (pending (Body r)) + 4) 0 (pending (Body r)))
    as [[v rest]|]; [|discriminate].
  destruct (skip_ws rest) as [|c1 r1] eqn:Hrest; [|discriminate].
  inversion Hp; subst v.
  assert (Hends : value_ends rest (Body r) = true).
  { destruct rest as [|c r']; cbn [value_ends]; [now rewrite Hf|reflexivity]. }
  rewrite Hends, orb_true_r.
  destruct (store_Message j zero_Message) as [m [|]]; reflexivity.
Qed.

Lemma CreateMessage_decodes_body_witness :
  CreateMessage
    (Responds (mkResponse 200 "200 OK"
                 (mkReader (quoted "{'id':'m1','role':'assistant','usage':{'output_tokens':3}}")
                    None) false))
  = (inr (mkMessage "m1" "" "assistant" [] "" "" "" (mkUsage 0 3)),
     Some (mkResponse 200 "200 OK"
             (mkReader (quoted "{'id':'m1','role':'assistant','usage':{'output_tokens':3}}")
                None) true)).
Proof.
  refine (CreateMessage_decodes_body
            (mkResponse 200 "200 OK"
               (mkReader (quoted "{'id':'m1','role':'assistant','usage':{'output_tokens':3}}")
                  None) false)
            (JObject [("id", JString "m1"); ("role", JString "assistant");
                      ("usage", JObject [("output_tokens", JNumber "3")])])
            _ eq_refl eq_refl).
  unfold StatusBadRequest. cbn. lia.
Defined.

(** X17.  A response with a status below 400 whose body holds nothing but
    blanks: [CreateMessage] returns no message but the error that ends the
    body, [io.EOF] for a body that simply ends. *)
Theorem CreateMessage_blank_body (r : Response) :
  (StatusCode r < StatusBadRequest)%Z ->
  skip_ws (pending (Body r)) = "" ->
  CreateMessage (Responds r)
  = (inl (BodyFailed (NoValue (end_error (Body r)))), Some (close_body r)).
Proof.
  intros Hs Hb. unfold CreateMessage, do.
  destruct (Z.geb (StatusCode r) StatusBadRequest) eqn:Hg;
    [rewrite Z.geb_leb in Hg; apply Z.leb_le in Hg; lia|].
  unfold Decode. now rewrite Hb.
Qed.

Lemma CreateMessage_blank_body_witness :
  CreateMessage (Responds (mkResponse 204 "204 No Content" (mkReader "" None) false))
  = (inl (BodyFailed (NoValue EOF)),
     Some (mkResponse 204 "204 No Content" (mkReader "" None) true)).
Proof.
  refine (CreateMessage_blank_body
            (mkResponse 204 "204 No Content" (mkReader "" None) false) _ eq_refl).
  unfold StatusBadRequest. cbn. lia.
Defined.

(** * Two more properties of [Recv] *)

(** X18.  No call of [Recv] gives the error [io.EOF]: the end of the
    stream never reaches the caller as such.  On a handle whose event
    struct holds no message every call returns: an event, or an error
    other than [io.EOF]. *)
Theorem Recv_returns_no_EOF (s : MessageStream) :
  exists res s',
    Recv s = Some (res, s')
    /\ res <> RecvError EOF
    /\ (ev_Message (event s) = None ->
        res = RecvEvent \/ exists err, res = RecvError err /\ err <> EOF).
Proof.
  destruct (Recv_total s) as (res & s' & H).
  exists res, s'. split; [exact H|].
  pose proof (Recv_never_EOF s s' res H) as Hn.
  split; [exact Hn|]. intros Hm.
  destruct res as [|err|].
  - now left.
  - right. exists err. split; [reflexivity|]. intros ->. now apply Hn.
  - destruct (Recv_panic s s' H) as [Hp _]. contradiction.
Qed.

(** The pull at the end of the stream on a fresh handle, which holds no
    message. *)
Lemma Recv_returns_no_EOF_witness :
  exists res s',
    Recv (stream_of "") = Some (res, s')
    /\ res <> RecvError EOF
    /\ (ev_Message (event (stream_of "")) = None ->
        res = RecvEvent \/ exists err, res = RecvError err /\ err <> EOF).
Proof. exact (Recv_returns_no_EOF (stream_of "")). Defined.

(** X19.  A [message_delta] frame with usage, pulled while the event
    struct holds a message: the output tokens of the usage are added to
    those of the message, in Go's [int]; everything else in the message,
    its input tokens among it, is kept whatever the payload says, and the
    delta of the event is the one decoded from this payload. *)
Theorem Recv_message_delta_adds (s : MessageStream) (f : Frame) (l : string)
    (ls : list string) (rest : string) (fl : option string)
    (w : MessageDeltaWrapper) (u : Usage) (m : Message) :
  frame_ok f = true ->
  f_event f = StreamEventMessageDelta ->
  f_lines f = l :: ls ->
  Unmarshal store_MessageDeltaWrapper (frame_data f) zero_MessageDeltaWrapper = (w, None) ->
  mdw_Usage w = Some u ->
  ev_Message (event s) = Some m ->
  reader s = mkReader (frame_text f ++ rest) fl ->
  Recv s
  = Some (RecvEvent,
          with_event (with_reader s (mkReader rest fl))
            (mkMessageStreamEvent StreamEventMessageDelta
               (Some (mkMessage (msg_ID m) (msg_Type m) (msg_Role m) (msg_Content m)
                        (msg_Model m) (msg_StopReason m) (msg_StopSequence m)
                        (mkUsage (InputTokens (msg_Usage m))
                           (wrap64 (OutputTokens (msg_Usage m) + OutputTokens u)))))
               (Some (mdw_Delta w))
               (ev_ContentBlock (event s)) (ev_Index (event s)))).
Proof.
  intros Hok He Hl Hu Husage Hm Hrd.
  assert (Hd : Nat.ltb 0 (String.length (frame_data f)) = true).
  { unfold frame_data. rewrite Hl. apply length_joined_pos. }
  assert (Hp : is_ping f = false) by (unfold is_ping; now rewrite He).
  rewrite (Recv_frame s [] f rest fl Hrd eq_refl eq_refl Hok Hp).
  rewrite He, (decode_message_delta _ _ Hd), Hu.
  cbv zeta. cbn [ev_Message set_Delta set_Type event with_reader].
  rewrite Hm, Husage. reflexivity.
Qed.

Lemma Recv_message_delta_adds_witness :
  let s := with_event (stream_of (frame_text (frame_message_delta delta_line_1) ++ ""))
             (set_Message_field zero_MessageStreamEvent (Some sample_message)) in
  Recv s
  = Some (RecvEvent,
          with_event (with_reader s (mkReader "" None))
            (mkMessageStreamEvent StreamEventMessageDelta
               (Some (mkMessage "m1" "" "assistant" [] "" "" "" (mkUsage 10 6)))
               (Some (mkMessageDelta "end_turn" None)) None 0)).
Proof.
  exact (Recv_message_delta_adds
           (with_event (stream_of (frame_text (frame_message_delta delta_line_1) ++ ""))
              (set_Message_field zero_MessageStreamEvent (Some sample_message)))
           (frame_message_delta delta_line_1) _ [] "" None
           (mkMessageDeltaWrapper "message_delta" (mkMessageDelta "end_turn" None)
              (Some (mkUsage 0 1)))
           (mkUsage 0 1) sample_message
           eq_refl eq_refl eq_refl eq_refl eq_refl eq_refl eq_refl).
Defined.

(** ** A ping frame in front of a pull *)



